(** * GitHub Assistant API: the request handlers of [api/index.js]

    A shallow embedding of the Express application of [api/index.js]: the
    body parser mounted in front of the routes, the [checkApiKey] middleware
    and the route handlers behind it, written as programs over the three
    [octokit.repos] operations they await.  A program is run against an
    arbitrary remote (any state type, any answers), and the run records every
    call made, so that statements such as "no remote call is made" or
    "exactly N deletes, in listing order" are statements about the recorded
    calls. *)

From Stdlib Require Import Strings.String Strings.Ascii Strings.Byte.
From Stdlib Require Import List Bool Arith NArith Lia.
Import ListNotations.

Set Warnings "-register-all".

Local Open Scope string_scope.
Local Open Scope list_scope.

(** ** Values *)

(** JSON values, as [express.json()] delivers them and [res.json] serialises
    them.  An object keeps its keys in insertion order.  A number is held as
    the text [String()] gives for it ("0", "123", "-1.5", "1e+21"): that text
    tells zero from the other numbers, which is all a handler asks of one. *)
Inductive json : Type :=
| JNull
| JBool (b : bool)
| JNum (shown : string)
| JStr (s : string)
| JArr (items : list json)
| JObj (fields : list (string * json)).

(** [obj.key] on a JSON value: [None] is JavaScript's [undefined]. *)
Fixpoint assoc (key : string) (fields : list (string * json)) : option json :=
  match fields with
  | [] => None
  | (k, v) :: rest => if String.eqb k key then Some v else assoc key rest
  end.

Definition field (key : string) (j : json) : option json :=
  match j with
  | JObj fields => assoc key fields
  | _ => None
  end.

(** A string-valued slot of the request ([req.headers[..]], [req.query.path],
    the [path], [content] and [message] of the body): [None] is [undefined].
    [truthy v] is the value of [v] when [!v] is false, that is when [v] is a
    non-empty string. *)
Definition truthy (v : option string) : option string :=
  match v with
  | Some s => if String.eqb s "" then None else Some s
  | None => None
  end.

(** The same for a slot that may hold any JSON value (the [content] of the
    body): [undefined], [null], [false], zero and the empty string are
    falsy, every other value, arrays and objects included, is truthy. *)
Definition truthy_value (v : option json) : option json :=
  match v with
  | None | Some JNull => None
  | Some (JBool b) => if b then v else None
  | Some (JNum shown) => if String.eqb shown "0" then None else v
  | Some (JStr s) => if String.eqb s "" then None else v
  | Some (JArr _) | Some (JObj _) => v
  end.

(** [!v] *)
Definition falsy (v : option string) : bool :=
  match truthy v with
  | Some _ => false
  | None => true
  end.

(** [v || d] *)
Definition or_else (v : option string) (d : string) : string :=
  match truthy v with
  | Some s => s
  | None => d
  end.

(** [a !== b] on two slots. *)
Definition strict_neq (a b : option string) : bool :=
  match a, b with
  | Some x, Some y => negb (String.eqb x y)
  | None, None => false
  | _, _ => true
  end.

(** [action === name] for the [action] of a request body, which may be any
    JSON value or missing. *)
Definition action_is (action : option json) (name : string) : bool :=
  match action with
  | Some (JStr s) => String.eqb s name
  | _ => false
  end.

(** ** Configuration (lines 8-11) *)

Record config : Type := {
  GITHUB_TOKEN : option string;
  REPO_OWNER : option string;
  REPO_NAME : option string;
  API_KEY : option string
}.

(** ** The remote operations *)

(** One object of the content API: the three properties the handlers read,
    and the object itself as the remote sent it, with all its properties in
    their order (the three above are among them). *)
Record entry : Type := {
  item_type : string;
  item_path : string;
  item_sha : string;
  item_object : json
}.

(** [response.data] of [getContent]: an object for a file, an array for a
    directory. *)
Inductive repo_content : Type :=
| File (e : entry)
| Listing (items : list entry).

(** [response.data] as [res.json] sends it on: the object, or the array of
    the objects, untouched. *)
Definition json_of_content (d : repo_content) : json :=
  match d with
  | File e => item_object e
  | Listing items => JArr (map item_object items)
  end.

(** [response.data.sha]: an array has no such property. *)
Definition data_sha (d : repo_content) : option string :=
  match d with
  | File e => Some (item_sha e)
  | Listing _ => None
  end.

Record getContent_params : Type := {
  gc_owner : option string;
  gc_repo : option string;
  gc_path : string
}.

Record deleteFile_params : Type := {
  df_owner : option string;
  df_repo : option string;
  df_path : string;
  df_message : string;
  df_sha : string
}.

Record createOrUpdate_params : Type := {
  cu_owner : option string;
  cu_repo : option string;
  cu_path : string;
  cu_message : string;
  cu_content : string;
  cu_sha : option string
}.

Inductive call : Type :=
| GetContent (p : getContent_params)
| DeleteFile (p : deleteFile_params)
| CreateOrUpdateFileContents (p : createOrUpdate_params).

(** What an awaited promise settles to; a rejection carries [error.message]. *)
Inductive outcome (A : Type) : Type :=
| Fulfilled (a : A)
| Rejected (message : string).
Arguments Fulfilled {A} a.
Arguments Rejected {A} message.

(** How a function ends: it returns, or it throws an error carrying
    [error.message]. *)
Inductive completion (A : Type) : Type :=
| Returned (a : A)
| Thrown (message : string).
Arguments Returned {A} a.
Arguments Thrown {A} message.

(** ** Handler programs *)

(** An [async] function body: it returns, throws, or awaits one of the three
    remote operations and goes on with what the promise settles to. *)
Inductive prog (A : Type) : Type :=
| Ret (a : A)
| Throw (message : string)
| AwaitGetContent (p : getContent_params) (k : outcome repo_content -> prog A)
| AwaitDeleteFile (p : deleteFile_params) (k : outcome unit -> prog A)
| AwaitCreateOrUpdate (p : createOrUpdate_params) (k : outcome unit -> prog A).
Arguments Ret {A} a.
Arguments Throw {A} message.
Arguments AwaitGetContent {A} p k.
Arguments AwaitDeleteFile {A} p k.
Arguments AwaitCreateOrUpdate {A} p k.

Fixpoint bind {A B : Type} (m : prog A) (f : A -> prog B) : prog B :=
  match m with
  | Ret a => f a
  | Throw e => Throw e
  | AwaitGetContent p k => AwaitGetContent p (fun o => bind (k o) f)
  | AwaitDeleteFile p k => AwaitDeleteFile p (fun o => bind (k o) f)
  | AwaitCreateOrUpdate p k => AwaitCreateOrUpdate p (fun o => bind (k o) f)
  end.

(** [try { m } catch (error) { h error.message }] *)
Fixpoint try_catch {A : Type} (m : prog A) (h : string -> prog A) : prog A :=
  match m with
  | Ret a => Ret a
  | Throw e => h e
  | AwaitGetContent p k => AwaitGetContent p (fun o => try_catch (k o) h)
  | AwaitDeleteFile p k => AwaitDeleteFile p (fun o => try_catch (k o) h)
  | AwaitCreateOrUpdate p k =>
      AwaitCreateOrUpdate p (fun o => try_catch (k o) h)
  end.

(** [await]: a rejected promise throws at the await. *)
Definition settle {A : Type} (o : outcome A) : prog A :=
  match o with
  | Fulfilled a => Ret a
  | Rejected e => Throw e
  end.

(** A call that may throw. *)
Definition attempt {A : Type} (c : completion A) : prog A :=
  match c with
  | Returned a => Ret a
  | Thrown e => Throw e
  end.

Module octokit_repos.
Definition getContent (p : getContent_params) : prog repo_content :=
  AwaitGetContent p settle.
Definition deleteFile (p : deleteFile_params) : prog unit :=
  AwaitDeleteFile p settle.
Definition createOrUpdateFileContents (p : createOrUpdate_params)
  : prog unit :=
  AwaitCreateOrUpdate p settle.
End octokit_repos.

Declare Scope prog_scope.
Delimit Scope prog_scope with prog.
Notation "x <- m ;; k" := (bind m (fun x => k))
  (at level 100, m at next level, right associativity) : prog_scope.
Notation "'try' m 'catch' x => h" := (try_catch m (fun x => h))
  (at level 100, m at level 200, x name, right associativity) : prog_scope.
Local Open Scope prog_scope.

(** [for (const item of items) { acc = body item acc }] *)
Fixpoint for_of {A S : Type} (items : list A) (body : A -> S -> prog S)
  (acc : S) : prog S :=
  match items with
  | [] => Ret acc
  | item :: rest => acc' <- body item acc ;; for_of rest body acc'
  end.

(** ** Requests and responses *)

(** The properties of [req.body] the handlers read.  [action] and [content]
    are whatever JSON value the caller sent: a handler compares the one and
    converts the other itself.  [path] and [message] go to the remote as they
    are and are held at the type the contents API gives them, a string. *)
Record body_t : Type := {
  body_action : option json;
  body_path : option string;
  body_content : option json;
  body_message : option string
}.

(** [req] as a route sees it: [express.json()] has parsed the body (what
    becomes of a request whose body it refuses is told by [server]
    below). *)
Record request : Type := {
  x_api_key : option string;      (* req.headers['x-api-key'] *)
  query_path : option string;     (* req.query.path *)
  body : body_t                   (* req.body, after express.json() *)
}.

Record response : Type := {
  status : nat;
  payload : json
}.

(** [res.json(j)] and [res.status(code).json(j)] *)
Definition res_json (j : json) : response :=
  {| status := 200; payload := j |}.
Definition res_status_json (code : nat) (j : json) : response :=
  {| status := code; payload := j |}.

Definition error_body (message : string) : json :=
  JObj [("error", JStr message)].

(** ** [Buffer.from(content).toString('base64')] *)

(** A JavaScript string is held as the bytes of its text in UTF-8: a
    character outside the basic plane, two code units that pair up, has its
    four bytes.  A lone surrogate (a code unit D800-DFFF that is not half of
    a pair), which UTF-8 has no bytes for, is held as the three bytes
    ED A0-BF 80-BF that the same scheme would give it.  ED is never a
    continuation byte, and in UTF-8 proper it is followed by 80-9F, so the
    pair ED, A0-BF marks a lone surrogate and nothing else. *)
Definition is_surrogate_second (b : byte) : bool :=
  (160 <=? Byte.to_N b)%N && (Byte.to_N b <=? 191)%N.

(** [Buffer.from] writes U+FFFD (EF BF BD) for each lone surrogate. *)
Fixpoint replace_lone_surrogates (l : list byte) : list byte :=
  match l with
  | [] => []
  | b :: rest =>
      match rest with
      | b2 :: _ :: rest' =>
          if Byte.eqb b xed && is_surrogate_second b2
          then xef :: xbf :: xbd :: replace_lone_surrogates rest'
          else b :: replace_lone_surrogates rest
      | _ => b :: replace_lone_surrogates rest
      end
  end.

Fixpoint has_lone_surrogate (l : list byte) : bool :=
  match l with
  | [] => false
  | b :: rest =>
      match rest with
      | b2 :: _ :: _ =>
          (Byte.eqb b xed && is_surrogate_second b2) || has_lone_surrogate rest
      | _ => has_lone_surrogate rest
      end
  end.

(** The string has no lone surrogate: it is well-formed Unicode. *)
Definition well_formed (s : string) : bool :=
  negb (has_lone_surrogate (list_byte_of_string s)).

(** [Buffer.from(s)] for a string [s]: its UTF-8 bytes, U+FFFD standing for
    each lone surrogate. *)
Definition Buffer_from (s : string) : list byte :=
  replace_lone_surrogates (list_byte_of_string s).

(** What the runtime makes of [Buffer.from(v)] when [v] is not a string.  A
    number, a boolean or null is refused with a TypeError whose wording is the
    runtime's; an array or an object is converted, or refused, as the runtime
    sees fit. *)
Class node : Type := {
  ERR_INVALID_ARG_TYPE : json -> string;
  Buffer_from_object : json -> completion (list byte)
}.

(** [Buffer.from(v)] for any value. *)
Definition Buffer_from_value {rt : node} (v : json)
  : completion (list byte) :=
  match v with
  | JStr s => Returned (Buffer_from s)
  | JArr _ | JObj _ => Buffer_from_object v
  | JNull | JBool _ | JNum _ => Thrown (ERR_INVALID_ARG_TYPE v)
  end.

Definition base64_alphabet : string :=
  "ABCDEFGHIJKLMNOPQRSTUVWXYZabcdefghijklmnopqrstuvwxyz0123456789+/".

Definition sextet_char (n : N) : ascii :=
  match String.get (N.to_nat n) base64_alphabet with
  | Some c => c
  | None => "="%char
  end.

Fixpoint index_from (i : N) (c : ascii) (table : string) : option N :=
  match table with
  | EmptyString => None
  | String d rest =>
      if Ascii.eqb c d then Some i else index_from (N.succ i) c rest
  end.

Definition char_sextet (c : ascii) : option N :=
  index_from 0 c base64_alphabet.

(** The four sextets of a group of three bytes [a], [b], [c]. *)
Definition sextet1 (a : N) : N := N.shiftr a 2.
Definition sextet2 (a b : N) : N :=
  N.lor (N.shiftl (N.land a 3) 4) (N.shiftr b 4).
Definition sextet3 (b c : N) : N :=
  N.lor (N.shiftl (N.land b 15) 2) (N.shiftr c 6).
Definition sextet4 (c : N) : N := N.land c 63.

(** Standard alphabet, [=] padding of the last group (RFC 4648, section 4). *)
Fixpoint base64_encode (bytes : list byte) : string :=
  match bytes with
  | [] => ""
  | [x] =>
      let a := Byte.to_N x in
      String (sextet_char (sextet1 a))
        (String (sextet_char (sextet2 a 0)) "==")
  | [x; y] =>
      let a := Byte.to_N x in
      let b := Byte.to_N y in
      String (sextet_char (sextet1 a))
        (String (sextet_char (sextet2 a b))
           (String (sextet_char (sextet3 b 0)) "="))
  | x :: y :: z :: rest =>
      let a := Byte.to_N x in
      let b := Byte.to_N y in
      let c := Byte.to_N z in
      String (sextet_char (sextet1 a))
        (String (sextet_char (sextet2 a b))
           (String (sextet_char (sextet3 b c))
              (String (sextet_char (sextet4 c)) (base64_encode rest))))
  end.

Definition toString_base64 (buffer : list byte) : string :=
  base64_encode buffer.

(** The bytes that four sextets stand for. *)
Definition octet1 (s1 s2 : N) : N := N.lor (N.shiftl s1 2) (N.shiftr s2 4).
Definition octet2 (s2 s3 : N) : N :=
  N.lor (N.shiftl (N.land s2 15) 4) (N.shiftr s3 2).
Definition octet3 (s3 s4 : N) : N := N.lor (N.shiftl (N.land s3 3) 6) s4.

Definition byte_of_N (n : N) : option byte := Byte.of_N n.

(** The decoder of the receiving side: groups of four characters, the last
    one possibly padded; anything else is not base64. *)
Fixpoint base64_decode (s : string) : option (list byte) :=
  match s with
  | EmptyString => Some []
  | String c1 (String c2 (String c3 (String c4 rest))) =>
      match char_sextet c1, char_sextet c2 with
      | Some s1, Some s2 =>
          match byte_of_N (octet1 s1 s2) with
          | None => None
          | Some x =>
              match char_sextet c3, char_sextet c4 with
              | Some s3, Some s4 =>
                  match byte_of_N (octet2 s2 s3), byte_of_N (octet3 s3 s4),
                        base64_decode rest with
                  | Some y, Some z, Some tail => Some (x :: y :: z :: tail)
                  | _, _, _ => None
                  end
              | Some s3, None =>
                  match byte_of_N (octet2 s2 s3), rest with
                  | Some y, EmptyString =>
                      if Ascii.eqb c4 "=" then Some [x; y] else None
                  | _, _ => None
                  end
              | None, _ =>
                  match rest with
                  | EmptyString =>
                      if Ascii.eqb c3 "=" && Ascii.eqb c4 "="
                      then Some [x] else None
                  | _ => None
                  end
              end
          end
      | _, _ => None
      end
  | _ => None
  end.

(** ** The application *)

(** The routes the file registers. *)
Inductive endpoint : Type :=
| GET_api            (* app.get('/api', ...) *)
| GET_api_list       (* app.get('/api/list', checkApiKey, ...) *)
| POST_api_delete    (* app.post('/api/delete', checkApiKey, ...) *)
| POST_api_create    (* app.post('/api/create', checkApiKey, ...) *)
| POST_api_claude.   (* app.post('/api/claude', checkApiKey, ...) *)

Section App.

Context {rt : node}.
Variable cfg : config.

(** Middleware to check API key (lines 22-30).  [next] is the rest of the
    route. *)
Definition checkApiKey (req : request) (next : prog response)
  : prog response :=
  let providedKey := x_api_key req in
  if falsy providedKey || strict_neq providedKey (API_KEY cfg)
  then Ret (res_status_json 401 (error_body "Unauthorized - Invalid API key"))
  else next.

(** Root endpoint (lines 33-35) *)
Definition api_root (req : request) : prog response :=
  Ret (res_json (JObj [("message", JStr "GitHub Assistant API is running!")])).

(** The body of the directory loop (lines 82-96, and again 194-208). *)
Definition delete_item (item : entry) (results : list json)
  : prog (list json) :=
  if String.eqb (item_type item) "file" then
    try
      (_ <- octokit_repos.deleteFile
              {| df_owner := REPO_OWNER cfg;
                 df_repo := REPO_NAME cfg;
                 df_path := item_path item;
                 df_message := "Delete " ++ item_path item;
                 df_sha := item_sha item |} ;;
       Ret (results ++
              [JObj [("success", JBool true);
                     ("path", JStr (item_path item))]]))
    catch error =>
      Ret (results ++
             [JObj [("error", JStr error);
                    ("path", JStr (item_path item))]])
  else Ret results.

(** List files endpoint (lines 38-52) *)
Definition api_list (req : request) : prog response :=
  try
    (let path := or_else (query_path req) "" in
     data <- octokit_repos.getContent
               {| gc_owner := REPO_OWNER cfg;
                  gc_repo := REPO_NAME cfg;
                  gc_path := path |} ;;
     Ret (res_json (json_of_content data)))
  catch error =>
    Ret (res_status_json 500 (error_body error)).

(** Delete file endpoint (lines 55-115) *)
Definition api_delete (req : request) : prog response :=
  try
    (match truthy (body_path (body req)) with
     | None => Ret (res_status_json 400 (error_body "Path is required"))
     | Some path =>
         (* First, get the file to get its SHA *)
         found <-
           (try
              (data <- octokit_repos.getContent
                         {| gc_owner := REPO_OWNER cfg;
                            gc_repo := REPO_NAME cfg;
                            gc_path := path |} ;;
               Ret (inr data))
            catch error =>
              Ret (inl (res_status_json 404
                          (error_body ("File not found: " ++ error))))) ;;
         match found with
         | inl res => Ret res
         | inr (Listing fileData) =>
             (* It's a directory, delete each file *)
             results <- for_of fileData delete_item [] ;;
             Ret (res_json
                    (JObj [("success", JBool true);
                           ("results", JArr results);
                           ("message",
                            JStr ("Processed directory " ++ path))]))
         | inr (File fileData) =>
             (* It's a single file *)
             _ <- octokit_repos.deleteFile
                    {| df_owner := REPO_OWNER cfg;
                       df_repo := REPO_NAME cfg;
                       df_path := path;
                       df_message := "Delete " ++ path;
                       df_sha := item_sha fileData |} ;;
             Ret (res_json
                    (JObj [("success", JBool true);
                           ("message", JStr ("Deleted file " ++ path))]))
         end
     end)
  catch error =>
    Ret (res_status_json 500 (error_body error)).

(** Create or update file endpoint (lines 118-154) *)
Definition api_create (req : request) : prog response :=
  try
    (match truthy (body_path (body req)),
           truthy_value (body_content (body req)) with
     | Some path, Some content =>
         (* Check if file exists to get its SHA *)
         sha <-
           (try
              (data <- octokit_repos.getContent
                         {| gc_owner := REPO_OWNER cfg;
                            gc_repo := REPO_NAME cfg;
                            gc_path := path |} ;;
               Ret (data_sha data))
            catch error =>
              (* File doesn't exist, which is fine for creation *)
              Ret None) ;;
         (* Create or update the file *)
         buffer <- attempt (Buffer_from_value content) ;;
         _ <- octokit_repos.createOrUpdateFileContents
                {| cu_owner := REPO_OWNER cfg;
                   cu_repo := REPO_NAME cfg;
                   cu_path := path;
                   cu_message :=
                     or_else (body_message (body req)) ("Update " ++ path);
                   cu_content := toString_base64 buffer;
                   cu_sha := sha |} ;;
         Ret (res_json
                (JObj [("success", JBool true);
                       ("message", JStr ("Updated " ++ path))]))
     | _, _ =>
         Ret (res_status_json 400
                (error_body "Path and content are required"))
     end)
  catch error =>
    Ret (res_status_json 500 (error_body error)).

(** Claude-specific endpoint that combines all functionality
    (lines 157-262) *)
Definition api_claude (req : request) : prog response :=
  try
    (let action := body_action (body req) in
     let path := body_path (body req) in
     let content := body_content (body req) in
     let message := body_message (body req) in
     if action_is action "list" then
       data <- octokit_repos.getContent
                 {| gc_owner := REPO_OWNER cfg;
                    gc_repo := REPO_NAME cfg;
                    gc_path := or_else path "" |} ;;
       Ret (res_json (json_of_content data))
     else if action_is action "delete" then
       match truthy path with
       | None => Ret (res_status_json 400 (error_body "Path is required"))
       | Some path =>
           (* First, get the file to get its SHA *)
           found <-
             (try
                (data <- octokit_repos.getContent
                           {| gc_owner := REPO_OWNER cfg;
                              gc_repo := REPO_NAME cfg;
                              gc_path := path |} ;;
                 Ret (inr data))
              catch error =>
                Ret (inl (res_status_json 404
                            (error_body ("File not found: " ++ error))))) ;;
           match found with
           | inl res => Ret res
           | inr (Listing fileData) =>
               (* It's a directory, delete each file *)
               results <- for_of fileData delete_item [] ;;
               Ret (res_json
                      (JObj [("success", JBool true);
                             ("results", JArr results);
                             ("message",
                              JStr ("Processed directory " ++ path))]))
           | inr (File fileData) =>
               (* It's a single file *)
               _ <- octokit_repos.deleteFile
                      {| df_owner := REPO_OWNER cfg;
                         df_repo := REPO_NAME cfg;
                         df_path := path;
                         df_message := "Delete " ++ path;
                         df_sha := item_sha fileData |} ;;
               Ret (res_json
                      (JObj [("success", JBool true);
                             ("message", JStr ("Deleted file " ++ path))]))
           end
       end
     else if action_is action "create" then
       match truthy path, truthy_value content with
       | Some path, Some content =>
           (* Check if file exists to get its SHA *)
           sha <-
             (try
                (data <- octokit_repos.getContent
                           {| gc_owner := REPO_OWNER cfg;
                              gc_repo := REPO_NAME cfg;
                              gc_path := path |} ;;
                 Ret (data_sha data))
              catch error =>
                (* File doesn't exist, which is fine for creation *)
                Ret None) ;;
           (* Create or update the file *)
           buffer <- attempt (Buffer_from_value content) ;;
           _ <- octokit_repos.createOrUpdateFileContents
                  {| cu_owner := REPO_OWNER cfg;
                     cu_repo := REPO_NAME cfg;
                     cu_path := path;
                     cu_message := or_else message ("Update " ++ path);
                     cu_content := toString_base64 buffer;
                     cu_sha := sha |} ;;
           Ret (res_json
                  (JObj [("success", JBool true);
                         ("message", JStr ("Updated " ++ path))]))
       | _, _ =>
           Ret (res_status_json 400
                  (error_body "Path and content are required"))
       end
     else
       Ret (res_status_json 400
              (error_body
                 "Invalid action. Use 'list', 'delete', or 'create'")))
  catch error =>
    Ret (res_status_json 500 (error_body error)).

Definition app (route : endpoint) (req : request) : prog response :=
  match route with
  | GET_api => api_root req
  | GET_api_list => checkApiKey req (api_list req)
  | POST_api_delete => checkApiKey req (api_delete req)
  | POST_api_create => checkApiKey req (api_create req)
  | POST_api_claude => checkApiKey req (api_claude req)
  end.

End App.

(** The routes registered with [checkApiKey]. *)
Definition protected (route : endpoint) : bool :=
  match route with
  | GET_api => false
  | _ => true
  end.

(** ** The body parser in front of the routes (line 19) *)

(** What [express.json()] makes of the body of a request before any route
    sees it: the parsed body (the empty object when the request carries no
    JSON body), or a refusal with the status of the parser's error: 400 for
    malformed JSON, 413 for a body over the size limit. *)
Inductive body_parse : Type :=
| Parsed (b : body_t)
| Refused (code : nat).

(** A request as it arrives. *)
Record incoming : Type := {
  in_x_api_key : option string;   (* the x-api-key header *)
  in_query_path : option string;  (* the path of the query string *)
  in_body : body_parse            (* what the parser makes of the body *)
}.

(** What goes back: the JSON response of a route, or the error page Express
    sends for an error raised by a middleware, of which only the status is
    kept. *)
Inductive reply : Type :=
| Handled (res : response)
| ErrorPage (code : nat).

Definition reply_status (r : reply) : nat :=
  match r with
  | Handled res => status res
  | ErrorPage code => code
  end.

(** [req], once the parser has put [b] in [req.body]. *)
Definition parsed_request (inc : incoming) (b : body_t) : request :=
  {| x_api_key := in_x_api_key inc; query_path := in_query_path inc;
     body := b |}.

(** [app.use(express.json())], then the routes: a refused body is answered
    by the parser's error and no route runs, [checkApiKey] included. *)
Definition server {rt : node} (cfg : config) (route : endpoint)
  (inc : incoming) : prog reply :=
  match in_body inc with
  | Refused code => Ret (ErrorPage code)
  | Parsed b =>
      res <- app cfg route (parsed_request inc b) ;;
      Ret (Handled res)
  end.

(** ** Running a handler against a remote *)

(** The hosting API as the handlers see it: each operation answers from a
    state of the remote and moves it.  Nothing is assumed about the answers,
    except that there is one: every call settles, fulfilled or rejected. *)
Record remote (W : Type) : Type := {
  getContent : getContent_params -> W -> outcome repo_content * W;
  deleteFile : deleteFile_params -> W -> outcome unit * W;
  createOrUpdateFileContents :
    createOrUpdate_params -> W -> outcome unit * W
}.
Arguments getContent {W} r p w.
Arguments deleteFile {W} r p w.
Arguments createOrUpdateFileContents {W} r p w.

(** What a run leaves behind: how the program ended, the remote calls it
    made, oldest first, and the state of the remote afterwards. *)
Record run_result (A W : Type) : Type := {
  result : completion A;
  calls : list call;
  world : W
}.
Arguments result {A W} r.
Arguments calls {A W} r.
Arguments world {A W} r.

Definition called {A W : Type} (c : call) (r : run_result A W)
  : run_result A W :=
  {| result := result r; calls := c :: calls r; world := world r |}.

Fixpoint run {A W : Type} (octokit : remote W) (m : prog A) (w : W)
  : run_result A W :=
  match m with
  | Ret a => {| result := Returned a; calls := []; world := w |}
  | Throw e => {| result := Thrown e; calls := []; world := w |}
  | AwaitGetContent p k =>
      let (o, w') := getContent octokit p w in
      called (GetContent p) (run octokit (k o) w')
  | AwaitDeleteFile p k =>
      let (o, w') := deleteFile octokit p w in
      called (DeleteFile p) (run octokit (k o) w')
  | AwaitCreateOrUpdate p k =>
      let (o, w') := createOrUpdateFileContents octokit p w in
      called (CreateOrUpdateFileContents p) (run octokit (k o) w')
  end.

(** ** An in-memory remote, for running the handlers on concrete requests *)

Module Memory.

(** The tree maps a path to what [getContent] answers there; the files whose
    path is in [locked] refuse to be deleted. *)
Record repo : Type := {
  tree : list (string * repo_content);
  locked : list string
}.

(** An object of the content API as the remote words it: the properties
    the handlers read, among others, in the remote's order. *)
Definition object_of (type path sha : string) : json :=
  JObj [("name", JStr path); ("path", JStr path); ("sha", JStr sha);
        ("size", JNum "12"); ("type", JStr type)].

Definition entry_of (type path sha : string) : entry :=
  {| item_type := type; item_path := path; item_sha := sha;
     item_object := object_of type path sha |}.

Fixpoint lookup (path : string) (t : list (string * repo_content))
  : option repo_content :=
  match t with
  | [] => None
  | (p, d) :: rest => if String.eqb p path then Some d else lookup path rest
  end.

Fixpoint remove (path : string) (t : list (string * repo_content))
  : list (string * repo_content) :=
  match t with
  | [] => []
  | (p, d) :: rest =>
      if String.eqb p path then remove path rest
      else (p, d) :: remove path rest
  end.

Definition mem (path : string) (l : list string) : bool :=
  existsb (String.eqb path) l.

Definition get (p : getContent_params) (w : repo) : outcome repo_content * repo :=
  match lookup (gc_path p) (tree w) with
  | Some d => (Fulfilled d, w)
  | None => (Rejected "Not Found", w)
  end.

Definition del (p : deleteFile_params) (w : repo) : outcome unit * repo :=
  if mem (df_path p) (locked w) then
    (Rejected "Repository rule violations found", w)
  else
    match lookup (df_path p) (tree w) with
    | Some (File e) =>
        if String.eqb (item_sha e) (df_sha p) then
          (Fulfilled tt,
           {| tree := remove (df_path p) (tree w); locked := locked w |})
        else (Rejected (df_path p ++ " does not match " ++ df_sha p), w)
    | _ => (Rejected "Not Found", w)
    end.

Definition put (p : createOrUpdate_params) (w : repo)
  : outcome unit * repo :=
  let written :=
    File (entry_of "file" (cu_path p) ("sha-of-" ++ cu_content p)) in
  let stored :=
    {| tree := (cu_path p, written) :: remove (cu_path p) (tree w);
       locked := locked w |} in
  match lookup (cu_path p) (tree w), cu_sha p with
  | None, None => (Fulfilled tt, stored)
  | Some (File e), Some sha =>
      if String.eqb (item_sha e) sha then (Fulfilled tt, stored)
      else (Rejected (cu_path p ++ " does not match " ++ sha), w)
  | Some _, None => (Rejected "Invalid request. sha wasn't supplied.", w)
  | _, _ => (Rejected "Not Found", w)
  end.

Definition octokit : remote repo :=
  {| getContent := get; deleteFile := del;
     createOrUpdateFileContents := put |}.

Definition readme : entry := entry_of "file" "README.md" "s0".
Definition doc_a : entry := entry_of "file" "docs/a.md" "s1".
Definition doc_img : entry := entry_of "dir" "docs/img" "s2".
Definition doc_b : entry := entry_of "file" "docs/b.md" "s3".
Definition doc_c : entry := entry_of "file" "docs/c.md" "s4".

(** A runtime for the concrete runs.  Its wording of the TypeError is
    Node's; for arrays and objects it stands in with a refusal, which is
    enough for runs whose content is a string or a number. *)
Definition not_a_buffer_source : string :=
  "The first argument must be of type string or an instance of Buffer, "
  ++ "ArrayBuffer, or Array or an Array-like Object.".

Definition received (v : json) : string :=
  match v with
  | JNull => " Received null"
  | JBool true => " Received type boolean (true)"
  | JBool false => " Received type boolean (false)"
  | JNum shown => " Received type number (" ++ shown ++ ")"
  | JStr s => " Received type string ('" ++ s ++ "')"
  | JArr _ => " Received an instance of Array"
  | JObj _ => " Received an instance of Object"
  end.

#[global] Instance runtime : node :=
  {| ERR_INVALID_ARG_TYPE :=
       fun v => String.append not_a_buffer_source (received v);
     Buffer_from_object :=
       fun v => Thrown (String.append not_a_buffer_source (received v)) |}.

Definition world0 : repo :=
  {| tree := [("README.md", File readme);
              ("docs", Listing [doc_a; doc_img; doc_b; doc_c]);
              ("docs/a.md", File doc_a);
              ("docs/b.md", File doc_b);
              ("docs/c.md", File doc_c)];
     locked := ["docs/b.md"] |}.

Definition cfg : config :=
  {| GITHUB_TOKEN := Some "ghp_token"; REPO_OWNER := Some "octo";
     REPO_NAME := Some "site"; API_KEY := Some "secret" |}.

(** A request carrying [action], the same [path] in the query and in the
    body, and a [content] that is a string when there is one. *)
Definition request_of (key : option string) (action : option json)
  (path content message : option string) : request :=
  {| x_api_key := key; query_path := path;
     body := {| body_action := action; body_path := path;
                body_content := option_map JStr content;
                body_message := message |} |}.

End Memory.

(** * Specification vocabulary *)

(** The caller presented the configured key, and that key is not empty. *)
Definition authorized (cfg : config) (req : request) : Prop :=
  exists key : string,
    x_api_key req = Some key /\ API_KEY cfg = Some key /\ key <> "".

Definition unauthorized_response : response :=
  {| status := 401;
     payload := JObj [("error", JStr "Unauthorized - Invalid API key")] |}.

Definition invalid_action_response : response :=
  {| status := 400;
     payload :=
       JObj [("error",
              JStr "Invalid action. Use 'list', 'delete', or 'create'")] |}.

(** ** The calls a handler makes *)

(** The parameters the handlers build (lines 66-70, 84-90, 102-108,
    141-148): named here so that statements can speak of them. *)
Definition lookup_of (cfg : config) (path : string) : getContent_params :=
  {| gc_owner := REPO_OWNER cfg; gc_repo := REPO_NAME cfg; gc_path := path |}.

Definition delete_of (cfg : config) (item : entry) : deleteFile_params :=
  {| df_owner := REPO_OWNER cfg; df_repo := REPO_NAME cfg;
     df_path := item_path item;
     df_message := "Delete " ++ item_path item;
     df_sha := item_sha item |}.

Definition write_of (cfg : config) (path commit content : string)
  (sha : option string) : createOrUpdate_params :=
  {| cu_owner := REPO_OWNER cfg; cu_repo := REPO_NAME cfg;
     cu_path := path; cu_message := commit;
     cu_content := content; cu_sha := sha |}.

(** The sha a lookup resolves: the one of the file found, none when the
    lookup is rejected (or finds a directory). *)
Definition resolved_sha (o : outcome repo_content) : option string :=
  match o with
  | Fulfilled d => data_sha d
  | Rejected _ => None
  end.

Definition is_delete (c : call) : bool :=
  match c with
  | DeleteFile _ => true
  | _ => false
  end.

(** How the create handler answers, from what the write settles to. *)
Definition create_response (path : string) (o : outcome unit) : response :=
  match o with
  | Fulfilled _ =>
      {| status := 200;
         payload := JObj [("success", JBool true);
                          ("message", JStr ("Updated " ++ path))] |}
  | Rejected e => {| status := 500; payload := JObj [("error", JStr e)] |}
  end.

(** How the delete handler answers a directory. *)
Definition directory_response (path : string) (results : list json)
  : response :=
  {| status := 200;
     payload := JObj [("success", JBool true);
                      ("results", JArr results);
                      ("message", JStr ("Processed directory " ++ path))] |}.

(** ** Deleting a directory *)

(** [item.type === 'file'] *)
Definition is_file (item : entry) : bool := String.eqb (item_type item) "file".

(** What the remote settles the deletes of [files] to, asked one after the
    other from the state [w], and the state it is left in. *)
Fixpoint delete_each {W : Type} (octokit : remote W) (cfg : config)
  (files : list entry) (w : W) : list (outcome unit) * W :=
  match files with
  | [] => ([], w)
  | f :: rest =>
      let (o, w1) := deleteFile octokit (delete_of cfg f) w in
      let (os, w2) := delete_each octokit cfg rest w1 in
      (o :: os, w2)
  end.

(** The entry of [results] for one file, from what its delete settled to. *)
Definition item_result (item : entry) (o : outcome unit) : json :=
  match o with
  | Fulfilled _ =>
      JObj [("success", JBool true); ("path", JStr (item_path item))]
  | Rejected e => JObj [("error", JStr e); ("path", JStr (item_path item))]
  end.

Definition item_results (files : list entry) (answers : list (outcome unit))
  : list json :=
  map (fun fo => item_result (fst fo) (snd fo)) (combine files answers).

(** The shape the specification gives to a per-item outcome:
    [{success: bool, path, message, error?}]. *)
Definition OperationResult_shape (j : json) : bool :=
  match field "success" j, field "path" j, field "message" j with
  | Some (JBool _), Some _, Some _ => true
  | _, _, _ => false
  end.

(** The shape the handler gives it: [{success: true, path}] for a delete that
    went through, [{error, path}] for one that was rejected. *)
Definition item_outcome_shape (j : json) : Prop :=
  exists path : string,
    j = JObj [("success", JBool true); ("path", JStr path)]
    \/ exists e : string, j = JObj [("error", JStr e); ("path", JStr path)].

(** ** Checking the base64 arithmetic on every byte *)

(** The naturals below [n], to check a decidable fact on all of them. *)
Definition below (n : nat) : list N := map N.of_nat (seq 0 n).

(** What one byte owes: its sextets are sextets, and its high and low
    parts put it back together. *)
Definition byte_check (a : N) : bool :=
  (sextet1 a <? 64)%N && (sextet4 a <? 64)%N
  && (N.lor (N.shiftl (N.shiftr a 4) 4) (N.land a 15) =? a)%N
  && (N.lor (N.shiftl (N.shiftr a 6) 6) (N.land a 63) =? a)%N.

(** What two neighbouring bytes owe: the sextet they share splits back
    into the part of each. *)
Definition pair_check (a b : N) : bool :=
  (sextet2 a b <? 64)%N && (sextet3 a b <? 64)%N
  && (octet1 (sextet1 a) (sextet2 a b) =? a)%N
  && (N.land (sextet2 a b) 15 =? N.shiftr b 4)%N
  && (N.shiftr (sextet3 a b) 2 =? N.land a 15)%N
  && (N.land (sextet3 a b) 3 =? N.shiftr b 6)%N.


(** ** What every run of a route has in common *)

(** The repository a call addresses. *)
Definition call_owner (c : call) : option string :=
  match c with
  | GetContent p => gc_owner p
  | DeleteFile p => df_owner p
  | CreateOrUpdateFileContents p => cu_owner p
  end.

Definition call_repo (c : call) : option string :=
  match c with
  | GetContent p => gc_repo p
  | DeleteFile p => df_repo p
  | CreateOrUpdateFileContents p => cu_repo p
  end.

Definition is_lookup (c : call) : bool :=
  match c with
  | GetContent _ => true
  | _ => false
  end.

Definition is_write (c : call) : bool :=
  match c with
  | CreateOrUpdateFileContents _ => true
  | _ => false
  end.

(** The operations each route is seen to use. *)
Definition route_may_call (route : endpoint) (c : call) : bool :=
  match route with
  | GET_api => false
  | GET_api_list => is_lookup c
  | POST_api_delete => is_lookup c || is_delete c
  | POST_api_create => is_lookup c || is_write c
  | POST_api_claude => true
  end.

(** The status codes each route is seen to answer with. *)
Definition route_statuses (route : endpoint) : list nat :=
  match route with
  | GET_api => [200]
  | GET_api_list => [200; 401; 500]
  | POST_api_delete => [200; 400; 401; 404; 500]
  | POST_api_create => [200; 400; 401; 500]
  | POST_api_claude => [200; 400; 401; 404; 500]
  end.

(** The calls of a run start with the lookup, if there are any, and no
    other lookup follows. *)
Definition lookup_first (t : list call) : Prop :=
  t = [] \/
  exists (p : getContent_params) (rest : list call),
    t = GetContent p :: rest /\ Forall (fun c => is_lookup c = false) rest.

(** [wp m Q]: whatever the remote answers, the calls [m] makes and the way
    it ends satisfy [Q]. *)
Fixpoint wp {A : Type} (m : prog A)
  (Q : list call -> completion A -> Prop) : Prop :=
  match m with
  | Ret a => Q [] (Returned a)
  | Throw e => Q [] (Thrown e)
  | AwaitGetContent p k =>
      forall o, wp (k o) (fun t c => Q (GetContent p :: t) c)
  | AwaitDeleteFile p k =>
      forall o, wp (k o) (fun t c => Q (DeleteFile p :: t) c)
  | AwaitCreateOrUpdate p k =>
      forall o, wp (k o) (fun t c => Q (CreateOrUpdateFileContents p :: t) c)
  end.

(** What holds of the calls [t] and the completion [c] of every run of
    [route]. *)
Definition well_behaved (cfg : config) (route : endpoint)
  (t : list call) (c : completion response) : Prop :=
  Forall (fun k => call_owner k = REPO_OWNER cfg
                   /\ call_repo k = REPO_NAME cfg) t
  /\ Forall (fun k => route_may_call route k = true) t
  /\ lookup_first t
  /\ exists res : response,
       c = Returned res /\ In (status res) (route_statuses route).

(** The fields of a per-item entry that tell how the delete settled. *)
Definition success_field (o : outcome unit) : option json :=
  match o with
  | Fulfilled _ => Some (JBool true)
  | Rejected _ => None
  end.

Definition error_field (o : outcome unit) : option json :=
  match o with
  | Fulfilled _ => None
  | Rejected e => Some (JStr e)
  end.

(** How the list handler answers, from what the lookup settles to. *)
Definition list_response (o : outcome repo_content) : response :=
  match o with
  | Fulfilled d => {| status := 200; payload := json_of_content d |}
  | Rejected e => {| status := 500; payload := JObj [("error", JStr e)] |}
  end.

(** How the delete handler answers for a single file, from what the delete
    settles to. *)
Definition delete_file_response (path : string) (o : outcome unit)
  : response :=
  match o with
  | Fulfilled _ =>
      {| status := 200;
         payload := JObj [("success", JBool true);
                          ("message", JStr ("Deleted file " ++ path))] |}
  | Rejected e => {| status := 500; payload := JObj [("error", JStr e)] |}
  end.

Definition running_response : response :=
  {| status := 200;
     payload := JObj [("message", JStr "GitHub Assistant API is running!")] |}.

(** ** Concrete runs *)

Example base64_hi : toString_base64 (Buffer_from "hi") = "aGk=".
Proof. reflexivity. Qed.

Example base64_hello :
  toString_base64 (Buffer_from "Hello, World!") = "SGVsbG8sIFdvcmxkIQ==".
Proof. reflexivity. Qed.

Example base64_decode_hello :
  base64_decode "SGVsbG8sIFdvcmxkIQ==" = Some (Buffer_from "Hello, World!").
Proof. reflexivity. Qed.

Example root_is_open :
  run Memory.octokit
    (app Memory.cfg GET_api (Memory.request_of None None None None None))
    Memory.world0
  = {| result := Returned
         (res_json (JObj [("message", JStr "GitHub Assistant API is running!")]));
       calls := []; world := Memory.world0 |}.
Proof. reflexivity. Qed.

Example create_a_txt :
  let r := run Memory.octokit
    (app Memory.cfg POST_api_create
       (Memory.request_of (Some "secret") None (Some "a.txt") (Some "hi") None))
    Memory.world0 in
  result r = Returned (res_json (JObj [("success", JBool true);
                                       ("message", JStr "Updated a.txt")]))
  /\ calls r =
     [GetContent {| gc_owner := Some "octo"; gc_repo := Some "site";
                    gc_path := "a.txt" |};
      CreateOrUpdateFileContents
        {| cu_owner := Some "octo"; cu_repo := Some "site";
           cu_path := "a.txt"; cu_message := "Update a.txt";
           cu_content := "aGk="; cu_sha := None |}].
Proof. split; reflexivity. Qed.

Example delete_docs :
  let r := run Memory.octokit
    (app Memory.cfg POST_api_delete
       (Memory.request_of (Some "secret") None (Some "docs") None None))
    Memory.world0 in
  result r = Returned (res_json (JObj
    [("success", JBool true);
     ("results", JArr
        [JObj [("success", JBool true); ("path", JStr "docs/a.md")];
         JObj [("error", JStr "Repository rule violations found");
               ("path", JStr "docs/b.md")];
         JObj [("success", JBool true); ("path", JStr "docs/c.md")]]);
     ("message", JStr "Processed directory docs")]))
  /\ List.length (calls r) = 4.
Proof. split; reflexivity. Qed.

(** ** Truthiness and the authorization gate *)

Lemma truthy_Some (v : option string) (s : string) :
  truthy v = Some s <-> v = Some s /\ s <> "".
Proof.
  unfold truthy. destruct v as [t|].
  - destruct (String.eqb_spec t "") as [E|E]; split.
    + discriminate.
    + intros [H1 H2]. injection H1 as ->. contradiction.
    + intros H. injection H as ->. split; [reflexivity | assumption].
    + intros [H1 _]. assumption.
  - split; [discriminate | intros [H _]; discriminate].
Qed.

Lemma truthy_None (v : option string) :
  truthy v = None <-> v = None \/ v = Some "".
Proof.
  unfold truthy. destruct v as [t|].
  - destruct (String.eqb_spec t "") as [E|E]; split.
    + intros _. right. now subst.
    + reflexivity.
    + discriminate.
    + intros [H|H]; [discriminate | injection H as ->; contradiction].
  - split; [now left | reflexivity].
Qed.

Lemma strict_neq_true (a b : option string) :
  strict_neq a b = true <-> a <> b.
Proof.
  destruct a as [x|], b as [y|]; simpl.
  - destruct (String.eqb_spec x y) as [E|E]; simpl; split; congruence.
  - split; [discriminate | reflexivity].
  - split; [discriminate | reflexivity].
  - split; [discriminate | congruence].
Qed.

Lemma checkApiKey_authorized cfg req next :
  authorized cfg req -> checkApiKey cfg req next = next.
Proof.
  intros (key & Hk & Hc & Hne). unfold checkApiKey, falsy.
  rewrite Hk, Hc.
  assert (Ht : truthy (Some key) = Some key) by (apply truthy_Some; auto).
  rewrite Ht. simpl. now rewrite String.eqb_refl.
Qed.

Lemma checkApiKey_rejects cfg req next :
  x_api_key req = None \/ x_api_key req <> API_KEY cfg ->
  checkApiKey cfg req next =
  Ret (res_status_json 401 (error_body "Unauthorized - Invalid API key")).
Proof.
  intros H. unfold checkApiKey.
  destruct H as [H|H].
  - rewrite H. reflexivity.
  - apply strict_neq_true in H. rewrite H, orb_true_r. reflexivity.
Qed.

(** Behind the parser, the gate answers a bad key before the route runs. *)
Lemma gate_rejects_a_bad_key {rt : node}
  (W : Type) (octokit : remote W) (cfg : config) (route : endpoint)
  (req : request) (w : W) :
  protected route = true ->
  x_api_key req = None \/ x_api_key req <> API_KEY cfg ->
  run octokit (app cfg route req) w =
  {| result := Returned unauthorized_response; calls := []; world := w |}.
Proof.
  intros Hp Hk.
  destruct route; try discriminate Hp; simpl;
    rewrite (checkApiKey_rejects _ _ _ Hk); reflexivity.
Qed.

Lemma gate_rejects_without_a_key {rt : node}
  (W : Type) (octokit : remote W) (cfg : config) (route : endpoint)
  (req : request) (w : W) :
  protected route = true ->
  API_KEY cfg = None \/ API_KEY cfg = Some "" ->
  run octokit (app cfg route req) w =
  {| result := Returned unauthorized_response; calls := []; world := w |}.
Proof.
  intros Hp Hk.
  assert (Hgate : falsy (x_api_key req)
                  || strict_neq (x_api_key req) (API_KEY cfg) = true).
  { unfold falsy. destruct (truthy (x_api_key req)) as [s|] eqn:Ht.
    - apply truthy_Some in Ht. destruct Ht as [Hs Hne].
      simpl. apply strict_neq_true. rewrite Hs.
      destruct Hk as [-> | ->]; congruence.
    - reflexivity. }
  destruct route; try discriminate Hp; simpl; unfold checkApiKey;
    rewrite Hgate; reflexivity.
Qed.

(** A run of the server on a request whose body the parser accepted, when
    the route answers without a call. *)
Lemma run_server_parsed {rt : node}
  (W : Type) (octokit : remote W) (cfg : config) (route : endpoint)
  (inc : incoming) (b : body_t) (res : response) (w : W) :
  in_body inc = Parsed b ->
  run octokit (app cfg route (parsed_request inc b)) w
  = {| result := Returned res; calls := []; world := w |} ->
  run octokit (server cfg route inc) w
  = {| result := Returned (Handled res); calls := []; world := w |}.
Proof.
  intros Hb Hrun. unfold server. rewrite Hb.
  destruct (app cfg route (parsed_request inc b)) as [a | e | p k | p k | p k];
    cbn [run] in Hrun.
  - injection Hrun as ->. reflexivity.
  - discriminate Hrun.
  - destruct (getContent octokit p w). discriminate Hrun.
  - destruct (deleteFile octokit p w). discriminate Hrun.
  - destruct (createOrUpdateFileContents octokit p w). discriminate Hrun.
Qed.

(** C1, as the specification states it, fails: the body parser is mounted
    before the gate (line 19), so a request to a protected endpoint with a
    wrong key and a malformed body is answered by the parser, 400, and not
    by the gate, 401. *)
Lemma bad_key_with_a_malformed_body_is_400 :
  let inc := {| in_x_api_key := Some "guess"; in_query_path := None;
                in_body := Refused 400 |} in
  let r := run Memory.octokit (server Memory.cfg POST_api_delete inc)
             Memory.world0 in
  protected POST_api_delete = true
  /\ option_map (String.eqb "guess") (API_KEY Memory.cfg) = Some false
  /\ result r = Returned (ErrorPage 400)
  /\ reply_status (ErrorPage 400) = 400
  /\ Nat.eqb 400 401 = false.
Proof. repeat split. Qed.

(** C1, amended. A request to a protected endpoint whose [x-api-key] header
    is absent, or differs from the configured key, never reaches a handler:
    when the parser accepts its body it is answered 401 with the body
    [{error: "Unauthorized - Invalid API key"}]; when the parser refuses its
    body it is answered with the parser's error.  Either way no call reaches
    the remote and its state is untouched. *)
Theorem bad_key_never_reaches_a_handler {rt : node}
  (W : Type) (octokit : remote W) (cfg : config) (route : endpoint)
  (inc : incoming) (w : W) :
  protected route = true ->
  in_x_api_key inc = None \/ in_x_api_key inc <> API_KEY cfg ->
  run octokit (server cfg route inc) w =
  {| result :=
       Returned
         match in_body inc with
         | Parsed _ =>
             Handled
               {| status := 401;
                  payload :=
                    JObj [("error", JStr "Unauthorized - Invalid API key")] |}
         | Refused code => ErrorPage code
         end;
     calls := []; world := w |}.
Proof.
  intros Hp Hk. destruct (in_body inc) as [b | code] eqn:Hb.
  - apply (run_server_parsed W octokit cfg route inc b _ w Hb).
    now apply gate_rejects_a_bad_key.
  - unfold server. rewrite Hb. reflexivity.
Qed.

Lemma bad_key_never_reaches_a_handler_witness :
  run Memory.octokit
    (server Memory.cfg POST_api_delete
       {| in_x_api_key := Some "guess"; in_query_path := None;
          in_body :=
            Parsed {| body_action := None; body_path := Some "docs";
                      body_content := None; body_message := None |} |})
    Memory.world0
  = {| result :=
         Returned
           (Handled
              {| status := 401;
                 payload :=
                   JObj [("error", JStr "Unauthorized - Invalid API key")] |});
       calls := []; world := Memory.world0 |}.
Proof.
  apply (bad_key_never_reaches_a_handler _ Memory.octokit Memory.cfg
           POST_api_delete
           {| in_x_api_key := Some "guess"; in_query_path := None;
              in_body :=
                Parsed {| body_action := None; body_path := Some "docs";
                          body_content := None; body_message := None |} |}
           Memory.world0).
  - reflexivity.
  - right. simpl. discriminate.
Defined.

(** C10, as stated, fails for the same reason as C1: with no API key
    configured, a request whose body is over the parser's limit is answered
    413 by the parser, not 401. *)
Lemma no_key_and_an_oversized_body_is_413 :
  let cfg := {| GITHUB_TOKEN := Some "ghp_token"; REPO_OWNER := Some "octo";
                REPO_NAME := Some "site"; API_KEY := None |} in
  let inc := {| in_x_api_key := Some "anything"; in_query_path := None;
                in_body := Refused 413 |} in
  let r := run Memory.octokit (server cfg POST_api_create inc)
             Memory.world0 in
  protected POST_api_create = true
  /\ API_KEY cfg = None
  /\ result r = Returned (ErrorPage 413)
  /\ reply_status (ErrorPage 413) = 413
  /\ Nat.eqb 413 401 = false.
Proof. repeat split. Qed.

(** C10, amended. When the configured API key is absent or empty, no request
    to a protected endpoint reaches a handler, whatever header it carries:
    when the parser accepts its body it is answered 401, when the parser
    refuses its body it is answered with the parser's error, and in neither
    case does a call reach the remote: the service is locked, not open. *)
Theorem unset_key_locks_every_handler {rt : node}
  (W : Type) (octokit : remote W) (cfg : config) (route : endpoint)
  (inc : incoming) (w : W) :
  protected route = true ->
  API_KEY cfg = None \/ API_KEY cfg = Some "" ->
  run octokit (server cfg route inc) w =
  {| result :=
       Returned
         match in_body inc with
         | Parsed _ =>
             Handled
               {| status := 401;
                  payload :=
                    JObj [("error", JStr "Unauthorized - Invalid API key")] |}
         | Refused code => ErrorPage code
         end;
     calls := []; world := w |}.
Proof.
  intros Hp Hk. destruct (in_body inc) as [b | code] eqn:Hb.
  - apply (run_server_parsed W octokit cfg route inc b _ w Hb).
    now apply gate_rejects_without_a_key.
  - unfold server. rewrite Hb. reflexivity.
Qed.

Lemma unset_key_locks_every_handler_witness :
  run Memory.octokit
    (server {| GITHUB_TOKEN := Some "ghp_token"; REPO_OWNER := Some "octo";
               REPO_NAME := Some "site"; API_KEY := Some "" |}
       GET_api_list
       {| in_x_api_key := Some ""; in_query_path := Some "docs";
          in_body :=
            Parsed {| body_action := None; body_path := None;
                      body_content := None; body_message := None |} |})
    Memory.world0
  = {| result :=
         Returned
           (Handled
              {| status := 401;
                 payload :=
                   JObj [("error", JStr "Unauthorized - Invalid API key")] |});
       calls := []; world := Memory.world0 |}.
Proof.
  apply (unset_key_locks_every_handler _ Memory.octokit
           {| GITHUB_TOKEN := Some "ghp_token"; REPO_OWNER := Some "octo";
              REPO_NAME := Some "site"; API_KEY := Some "" |}
           GET_api_list
           {| in_x_api_key := Some ""; in_query_path := Some "docs";
              in_body :=
                Parsed {| body_action := None; body_path := None;
                          body_content := None; body_message := None |} |}
           Memory.world0).
  - reflexivity.
  - right. reflexivity.
Defined.

(** ** Base64: decoding undoes encoding *)

Lemma below_In (n : nat) (k : N) : (k < N.of_nat n)%N -> In k (below n).
Proof.
  intros H. unfold below. apply in_map_iff.
  exists (N.to_nat k). split; [apply N2Nat.id |].
  apply in_seq. lia.
Qed.

Lemma forall_below (n : nat) (f : N -> bool) (k : N) :
  forallb f (below n) = true -> (k < N.of_nat n)%N -> f k = true.
Proof.
  intros Hall Hk. rewrite forallb_forall in Hall.
  apply Hall, below_In, Hk.
Qed.

Lemma forall_below2 (n : nat) (f : N -> N -> bool) (a b : N) :
  forallb (fun x => forallb (f x) (below n)) (below n) = true ->
  (a < N.of_nat n)%N -> (b < N.of_nat n)%N -> f a b = true.
Proof.
  intros Hall Ha Hb.
  apply (forall_below n (f a) b); [| exact Hb].
  apply (forall_below n (fun x => forallb (f x) (below n)) a Hall Ha).
Qed.

Lemma byte_bound (x : byte) : (Byte.to_N x < N.of_nat 256)%N.
Proof. pose proof (Byte.to_N_bounded x). lia. Qed.

Lemma byte_check_all : forallb byte_check (below 256) = true.
Proof. vm_compute. reflexivity. Qed.

Lemma pair_check_all :
  forallb (fun a => forallb (pair_check a) (below 256)) (below 256) = true.
Proof. vm_compute. reflexivity. Qed.

Lemma alphabet_all :
  forallb (fun n => match char_sextet (sextet_char n) with
                    | Some m => (m =? n)%N
                    | None => false
                    end) (below 64) = true.
Proof. vm_compute. reflexivity. Qed.

Lemma char_sextet_sextet_char (n : N) :
  (n < 64)%N -> char_sextet (sextet_char n) = Some n.
Proof.
  intros H. pose proof (forall_below 64 _ n alphabet_all H) as C.
  cbv beta in C. destruct (char_sextet (sextet_char n)) as [m|].
  - apply N.eqb_eq in C. now subst.
  - discriminate.
Qed.

Section Bytes.
Variables x y : byte.
Let a := Byte.to_N x.
Let b := Byte.to_N y.

Lemma byte_facts :
  (sextet1 a < 64)%N /\ (sextet4 a < 64)%N
  /\ N.lor (N.shiftl (N.shiftr a 4) 4) (N.land a 15) = a
  /\ N.lor (N.shiftl (N.shiftr a 6) 6) (N.land a 63) = a.
Proof.
  pose proof (forall_below 256 _ a byte_check_all (byte_bound x)) as C.
  unfold byte_check in C.
  repeat (apply andb_prop in C; destruct C as [C ?]).
  repeat split;
    first [ now apply N.ltb_lt | now apply N.eqb_eq ].
Qed.

Lemma pair_facts :
  (sextet2 a b < 64)%N /\ (sextet3 a b < 64)%N
  /\ octet1 (sextet1 a) (sextet2 a b) = a
  /\ N.land (sextet2 a b) 15 = N.shiftr b 4
  /\ N.shiftr (sextet3 a b) 2 = N.land a 15
  /\ N.land (sextet3 a b) 3 = N.shiftr b 6.
Proof.
  pose proof (forall_below2 256 _ a b pair_check_all
                (byte_bound x) (byte_bound y)) as C.
  unfold pair_check in C.
  repeat (apply andb_prop in C; destruct C as [C ?]).
  repeat split;
    first [ now apply N.ltb_lt | now apply N.eqb_eq ].
Qed.
End Bytes.

Lemma list_ind3 (P : list byte -> Prop) :
  P [] ->
  (forall x, P [x]) ->
  (forall x y, P [x; y]) ->
  (forall x y z rest, P rest -> P (x :: y :: z :: rest)) ->
  forall l, P l.
Proof.
  intros H0 H1 H2 H3.
  fix IH 1.
  intros [|x [|y [|z rest]]].
  - exact H0.
  - apply H1.
  - apply H2.
  - apply H3, IH.
Qed.

Lemma octet2_sextets (x y z : byte) :
  octet2 (sextet2 (Byte.to_N x) (Byte.to_N y))
         (sextet3 (Byte.to_N y) (Byte.to_N z)) = Byte.to_N y.
Proof.
  unfold octet2.
  destruct (pair_facts x y) as (_ & _ & _ & H4 & _).
  destruct (pair_facts y z) as (_ & _ & _ & _ & H5 & _).
  destruct (byte_facts y) as (_ & _ & H3 & _).
  rewrite H4, H5. exact H3.
Qed.

Lemma octet3_sextets (y z : byte) :
  octet3 (sextet3 (Byte.to_N y) (Byte.to_N z)) (sextet4 (Byte.to_N z))
  = Byte.to_N z.
Proof.
  unfold octet3, sextet4.
  destruct (pair_facts y z) as (_ & _ & _ & _ & _ & H6).
  destruct (byte_facts z) as (_ & _ & _ & H4).
  rewrite H6. exact H4.
Qed.

Lemma octet1_sextets (x y : byte) :
  octet1 (sextet1 (Byte.to_N x)) (sextet2 (Byte.to_N x) (Byte.to_N y))
  = Byte.to_N x.
Proof. apply (pair_facts x y). Qed.

Lemma byte_of_to_N (x : byte) : byte_of_N (Byte.to_N x) = Some x.
Proof. apply Byte.of_to_N. Qed.

(** Decoding what the encoder wrote gives back the buffer. *)
Lemma base64_decode_encode (bytes : list byte) :
  base64_decode (base64_encode bytes) = Some bytes.
Proof.
  induction bytes as [| x | x y | x y z rest IH] using list_ind3.
  - reflexivity.
  - pose proof (octet1_sextets x x00) as O1.
    destruct (byte_facts x) as (S1 & _).
    destruct (pair_facts x x00) as (S2 & _).
    change (Byte.to_N x00) with 0%N in *.
    cbn [base64_encode base64_decode].
    rewrite (char_sextet_sextet_char _ S1),
            (char_sextet_sextet_char _ S2), O1, byte_of_to_N.
    reflexivity.
  - pose proof (octet1_sextets x y) as O1.
    pose proof (octet2_sextets x y x00) as O2.
    destruct (byte_facts x) as (S1 & _).
    destruct (pair_facts x y) as (S2 & _).
    destruct (pair_facts y x00) as (_ & S3 & _).
    change (Byte.to_N x00) with 0%N in *.
    cbn [base64_encode base64_decode].
    rewrite (char_sextet_sextet_char _ S1),
            (char_sextet_sextet_char _ S2),
            (char_sextet_sextet_char _ S3), O1, O2, !byte_of_to_N.
    reflexivity.
  - pose proof (octet1_sextets x y) as O1.
    pose proof (octet2_sextets x y z) as O2.
    pose proof (octet3_sextets y z) as O3.
    destruct (byte_facts x) as (S1 & _).
    destruct (pair_facts x y) as (S2 & _).
    destruct (pair_facts y z) as (_ & S3 & _).
    destruct (byte_facts z) as (_ & S4 & _).
    cbn [base64_encode base64_decode].
    rewrite (char_sextet_sextet_char _ S1),
            (char_sextet_sextet_char _ S2),
            (char_sextet_sextet_char _ S3),
            (char_sextet_sextet_char _ S4),
            O1, O2, O3, !byte_of_to_N, IH.
    reflexivity.
Qed.

Lemma replace_three (b b2 b3 : byte) (rest : list byte) :
  replace_lone_surrogates (b :: b2 :: b3 :: rest)
  = if Byte.eqb b xed && is_surrogate_second b2
    then xef :: xbf :: xbd :: replace_lone_surrogates rest
    else b :: replace_lone_surrogates (b2 :: b3 :: rest).
Proof. reflexivity. Qed.

(** Without a lone surrogate there is nothing to replace. *)
Lemma replace_nothing (l : list byte) :
  has_lone_surrogate l = false -> replace_lone_surrogates l = l.
Proof.
  induction l as [|b rest IH]; [reflexivity |].
  destruct rest as [|b2 [|b3 rest']]; cbn [has_lone_surrogate].
  - reflexivity.
  - intros _. reflexivity.
  - intros H. apply orb_false_elim in H. destruct H as [Hb Hrest].
    rewrite replace_three, Hb. now rewrite (IH Hrest).
Qed.

(** A replacement is as long as what it replaces. *)
Lemma replace_length (l : list byte) :
  List.length (replace_lone_surrogates l) = List.length l.
Proof.
  assert (H : forall n l, List.length l <= n ->
              List.length (replace_lone_surrogates l) = List.length l).
  { clear l. induction n as [|n IH]; intros l Hn.
    - destruct l; [reflexivity | cbn in Hn; lia].
    - destruct l as [|b [|b2 [|b3 rest']]]; try reflexivity.
      rewrite replace_three.
      destruct (Byte.eqb b xed && is_surrogate_second b2).
      + cbn [List.length] in *. rewrite IH by lia. reflexivity.
      + cbn [List.length] in *. rewrite IH by (cbn [List.length]; lia).
        reflexivity. }
  apply (H (List.length l)). lia.
Qed.

Lemma Buffer_from_well_formed (s : string) :
  well_formed s = true -> Buffer_from s = list_byte_of_string s.
Proof.
  unfold well_formed, Buffer_from. intros H.
  apply replace_nothing. now apply negb_true_iff in H.
Qed.

(** The text of the buffer is the text that went in, when that text is
    well-formed. *)
Lemma Buffer_from_text (s : string) :
  well_formed s = true -> string_of_list_byte (Buffer_from s) = s.
Proof.
  intros H. rewrite (Buffer_from_well_formed s H).
  apply string_of_list_byte_of_string.
Qed.

Lemma truthy_value_text (v : option json) (s : string) :
  v = Some (JStr s) -> s <> "" -> truthy_value v = Some (JStr s).
Proof.
  intros -> Hne. cbn.
  destruct (String.eqb_spec s "") as [E|_]; [contradiction | reflexivity].
Qed.

(** The values a handler takes for no content at all. *)
Lemma truthy_value_None (v : option json) :
  v = None \/ v = Some (JStr "") \/ v = Some JNull
  \/ v = Some (JBool false) \/ v = Some (JNum "0") ->
  truthy_value v = None.
Proof. intros [-> | [-> | [-> | [-> | ->]]]]; reflexivity. Qed.

(** One run of the create handler past its validation: a lookup, then a
    write carrying the sha the lookup resolved, and the answer depends on
    the write alone. *)
Lemma run_api_create {rt : node}
  (W : Type) (octokit : remote W) (cfg : config) (req : request) (w : W)
  (path content : string) (o : outcome repo_content) (w1 : W)
  (o2 : outcome unit) (w2 : W) :
  truthy (body_path (body req)) = Some path ->
  truthy_value (body_content (body req)) = Some (JStr content) ->
  getContent octokit (lookup_of cfg path) w = (o, w1) ->
  createOrUpdateFileContents octokit
    (write_of cfg path
       (or_else (body_message (body req)) ("Update " ++ path))
       (toString_base64 (Buffer_from content)) (resolved_sha o)) w1
  = (o2, w2) ->
  run octokit (api_create cfg req) w =
  {| result := Returned (create_response path o2);
     calls :=
       [GetContent (lookup_of cfg path);
        CreateOrUpdateFileContents
          (write_of cfg path
             (or_else (body_message (body req)) ("Update " ++ path))
             (toString_base64 (Buffer_from content)) (resolved_sha o))];
     world := w2 |}.
Proof.
  intros Hp Hc Hget Hput. unfold api_create. rewrite Hp, Hc.
  unfold lookup_of, write_of in *. simpl. rewrite Hget.
  destruct o as [d|e]; simpl in *; rewrite Hput;
    destruct o2 as [[]|e2]; reflexivity.
Qed.

(** C7. For an authorized request, delete answers 400 when the body has no
    path (or an empty one), and create answers 400 when the path or the
    content is missing or empty (or the content is null, false or zero); in
    each case no call reaches the remote. *)
Theorem missing_fields_are_rejected {rt : node}
  (W : Type) (octokit : remote W) (cfg : config) (req : request) (w : W) :
  authorized cfg req ->
  (body_path (body req) = None \/ body_path (body req) = Some "" ->
   run octokit (app cfg POST_api_delete req) w =
   {| result := Returned
        {| status := 400;
           payload := JObj [("error", JStr "Path is required")] |};
      calls := []; world := w |})
  /\
  ((body_path (body req) = None \/ body_path (body req) = Some "")
   \/ (body_content (body req) = None
       \/ body_content (body req) = Some (JStr "")
       \/ body_content (body req) = Some JNull
       \/ body_content (body req) = Some (JBool false)
       \/ body_content (body req) = Some (JNum "0")) ->
   run octokit (app cfg POST_api_create req) w =
   {| result := Returned
        {| status := 400;
           payload := JObj [("error", JStr "Path and content are required")] |};
      calls := []; world := w |}).
Proof.
  intros Hauth. split; intros H; simpl;
    rewrite (checkApiKey_authorized _ _ _ Hauth).
  - apply truthy_None in H. unfold api_delete. rewrite H. reflexivity.
  - unfold api_create. destruct H as [H|H].
    + apply truthy_None in H. rewrite H. reflexivity.
    + apply truthy_value_None in H. rewrite H.
      destruct (truthy (body_path (body req))); reflexivity.
Qed.

Lemma missing_fields_are_rejected_witness :
  let req := Memory.request_of (Some "secret") None (Some "a.txt") (Some "")
               None in
  let req' := Memory.request_of (Some "secret") None None (Some "hi") None in
  run Memory.octokit (app Memory.cfg POST_api_delete req') Memory.world0 =
  {| result := Returned
       {| status := 400;
          payload := JObj [("error", JStr "Path is required")] |};
     calls := []; world := Memory.world0 |}
  /\
  run Memory.octokit (app Memory.cfg POST_api_create req) Memory.world0 =
  {| result := Returned
       {| status := 400;
          payload := JObj [("error", JStr "Path and content are required")] |};
     calls := []; world := Memory.world0 |}.
Proof.
  assert (A : forall k p c, authorized Memory.cfg
                (Memory.request_of (Some "secret") k p c None)).
  { intros. exists "secret". repeat split. discriminate. }
  split.
  - apply (missing_fields_are_rejected _ Memory.octokit Memory.cfg
             _ Memory.world0 (A None None (Some "hi"))).
    left. reflexivity.
  - apply (missing_fields_are_rejected _ Memory.octokit Memory.cfg
             _ Memory.world0 (A None (Some "a.txt") (Some ""))).
    right. right. left. reflexivity.
Defined.

(** C6. For an authorized delete request with a non-empty path, when the
    lookup of the path is rejected the answer is 404, its error message is
    "File not found: " followed by the message of the rejection, and the
    lookup is the only call made: no deleteFile. *)
Theorem delete_of_missing_path_is_404 {rt : node}
  (W : Type) (octokit : remote W) (cfg : config) (req : request) (w : W)
  (path reason : string) (w1 : W) :
  authorized cfg req ->
  body_path (body req) = Some path -> path <> "" ->
  getContent octokit (lookup_of cfg path) w = (Rejected reason, w1) ->
  let r := run octokit (app cfg POST_api_delete req) w in
  r = {| result := Returned
           {| status := 404;
              payload := JObj [("error", JStr ("File not found: " ++ reason))] |};
         calls := [GetContent (lookup_of cfg path)]; world := w1 |}
  /\ (exists before after : string,
        ("File not found: " ++ reason)%string
        = (before ++ "File not found:" ++ after)%string)
  /\ filter is_delete (calls r) = [].
Proof.
  intros Hauth Hp Hne Hget r.
  assert (Hr : r = {| result := Returned
           {| status := 404;
              payload := JObj [("error", JStr ("File not found: " ++ reason))] |};
         calls := [GetContent (lookup_of cfg path)]; world := w1 |}).
  { subst r. simpl. rewrite (checkApiKey_authorized _ _ _ Hauth).
    unfold api_delete.
    assert (Ht : truthy (body_path (body req)) = Some path)
      by (apply truthy_Some; auto).
    rewrite Ht. unfold lookup_of in *. simpl. rewrite Hget. reflexivity. }
  split; [exact Hr |]. split.
  - exists "", (" " ++ reason)%string. reflexivity.
  - rewrite Hr. reflexivity.
Qed.

Lemma delete_of_missing_path_is_404_witness :
  let r := run Memory.octokit
             (app Memory.cfg POST_api_delete
                (Memory.request_of (Some "secret") None (Some "nope.txt")
                   None None))
             Memory.world0 in
  r = {| result := Returned
           {| status := 404;
              payload := JObj [("error", JStr "File not found: Not Found")] |};
         calls := [GetContent (lookup_of Memory.cfg "nope.txt")];
         world := Memory.world0 |}
  /\ (exists before after : string,
        "File not found: Not Found"
        = (before ++ "File not found:" ++ after)%string)
  /\ filter is_delete (calls r) = [].
Proof.
  apply (delete_of_missing_path_is_404 _ Memory.octokit Memory.cfg
           (Memory.request_of (Some "secret") None (Some "nope.txt") None None)
           Memory.world0 "nope.txt" "Not Found" Memory.world0).
  - exists "secret". repeat split. discriminate.
  - reflexivity.
  - discriminate.
  - reflexivity.
Defined.

Lemma authorized_secret (action : option json)
  (path content message : option string) :
  authorized Memory.cfg
    (Memory.request_of (Some "secret") action path content message).
Proof. exists "secret". repeat split. discriminate. Qed.




(** C5, as the specification states it, fails: a content holding the lone
    surrogate U+D800 is transmitted as "77+9", the base64 of EF BF BD, which
    decodes to U+FFFD and not to what was submitted. *)
Lemma lone_surrogate_does_not_round_trip :
  let content := String "237" (String "160" (String "128" "")) in
  let r := run Memory.octokit
             (app Memory.cfg POST_api_create
                (Memory.request_of (Some "secret") None (Some "a.txt")
                   (Some content) None))
             Memory.world0 in
  exists (lookup : getContent_params) (write : createOrUpdate_params),
    calls r = [GetContent lookup; CreateOrUpdateFileContents write]
    /\ cu_content write = "77+9"
    /\ base64_decode (cu_content write) = Some [xef; xbf; xbd]
    /\ list_byte_of_string content = [xed; xa0; x80]
    /\ option_map (fun bytes => String.eqb (string_of_list_byte bytes) content)
         (base64_decode (cu_content write)) = Some false.
Proof. do 2 eexists. repeat split. Qed.

(** C5, amended. For an authorized create request whose content is a
    string, the content handed to the write call is the base64 encoding of
    the bytes [Buffer.from] makes of it, and decoding gives those bytes back.
    When the content is well-formed (no lone surrogate) they are the bytes of
    the submitted content, so that decoding yields the submitted content byte
    for byte; a lone surrogate comes back as U+FFFD. *)
Theorem create_content_round_trips {rt : node}
  (W : Type) (octokit : remote W) (cfg : config) (req : request) (w : W)
  (path content : string) :
  authorized cfg req ->
  body_path (body req) = Some path -> path <> "" ->
  body_content (body req) = Some (JStr content) -> content <> "" ->
  exists (lookup : getContent_params) (write : createOrUpdate_params),
    calls (run octokit (app cfg POST_api_create req) w)
    = [GetContent lookup; CreateOrUpdateFileContents write]
    /\ cu_content write = toString_base64 (Buffer_from content)
    /\ base64_decode (cu_content write)
       = Some (replace_lone_surrogates (list_byte_of_string content))
    /\ (well_formed content = true ->
        base64_decode (cu_content write)
        = Some (list_byte_of_string content)
        /\ option_map string_of_list_byte (base64_decode (cu_content write))
           = Some content).
Proof.
  intros Hauth Hp Hpne Hc Hcne.
  assert (Tp : truthy (body_path (body req)) = Some path)
    by (apply truthy_Some; auto).
  assert (Tc : truthy_value (body_content (body req)) = Some (JStr content))
    by (now apply truthy_value_text).
  destruct (getContent octokit (lookup_of cfg path) w) as [o w1] eqn:Hget.
  set (write := write_of cfg path
                  (or_else (body_message (body req)) ("Update " ++ path))
                  (toString_base64 (Buffer_from content)) (resolved_sha o)).
  destruct (createOrUpdateFileContents octokit write w1) as [o2 w2] eqn:Hput.
  exists (lookup_of cfg path), write.
  simpl app. rewrite (checkApiKey_authorized _ _ _ Hauth).
  rewrite (run_api_create W octokit cfg req w path content o w1 o2 w2
             Tp Tc Hget Hput).
  cbn [calls cu_content write_of]. subst write. cbn [cu_content write_of].
  unfold toString_base64. rewrite base64_decode_encode.
  split; [reflexivity |]. split; [reflexivity |]. split; [reflexivity |].
  intros Hwf. rewrite (Buffer_from_well_formed content Hwf).
  split; [reflexivity |]. cbn [option_map].
  now rewrite string_of_list_byte_of_string.
Qed.

Lemma create_content_round_trips_witness :
  exists (lookup : getContent_params) (write : createOrUpdate_params),
    calls (run Memory.octokit
             (app Memory.cfg POST_api_create
                (Memory.request_of (Some "secret") None (Some "a.txt")
                   (Some "hi") None))
             Memory.world0)
    = [GetContent lookup; CreateOrUpdateFileContents write]
    /\ cu_content write = "aGk="
    /\ option_map string_of_list_byte (base64_decode (cu_content write))
       = Some "hi".
Proof.
  destruct (create_content_round_trips _ Memory.octokit Memory.cfg
              (Memory.request_of (Some "secret") None (Some "a.txt")
                 (Some "hi") None)
              Memory.world0 "a.txt" "hi"
              (authorized_secret _ _ _ _) eq_refl
              ltac:(discriminate) eq_refl ltac:(discriminate))
    as (lookup & write & Hcalls & Hcontent & _ & Hwf).
  exists lookup, write.
  split; [exact Hcalls |]. split; [exact Hcontent |].
  exact (proj2 (Hwf eq_refl)).
Defined.

(** C9. For an authorized create request whose write is fulfilled, the answer
    is 200 with [{success: true, message: "Updated <path>"}]; and when the
    request supplies no commit message, the write is committed with exactly
    "Update <path>". *)
Theorem create_reports_updated_path {rt : node}
  (W : Type) (octokit : remote W) (cfg : config) (req : request) (w : W)
  (path content : string) (o : outcome repo_content) (w1 : W) :
  authorized cfg req ->
  body_path (body req) = Some path -> path <> "" ->
  body_content (body req) = Some (JStr content) -> content <> "" ->
  getContent octokit (lookup_of cfg path) w = (o, w1) ->
  let r := run octokit (app cfg POST_api_create req) w in
  exists write : createOrUpdate_params,
    calls r = [GetContent (lookup_of cfg path);
               CreateOrUpdateFileContents write]
    /\ (body_message (body req) = None ->
        cu_message write = ("Update " ++ path)%string)
    /\ (forall w2,
          createOrUpdateFileContents octokit write w1 = (Fulfilled tt, w2) ->
          result r =
          Returned {| status := 200;
                      payload := JObj [("success", JBool true);
                                       ("message",
                                        JStr ("Updated " ++ path))] |}).
Proof.
  intros Hauth Hp Hpne Hc Hcne Hget r.
  assert (Tp : truthy (body_path (body req)) = Some path)
    by (apply truthy_Some; auto).
  assert (Tc : truthy_value (body_content (body req)) = Some (JStr content))
    by (now apply truthy_value_text).
  set (write := write_of cfg path
                  (or_else (body_message (body req)) ("Update " ++ path))
                  (toString_base64 (Buffer_from content)) (resolved_sha o)).
  destruct (createOrUpdateFileContents octokit write w1) as [o2 w2] eqn:Hput.
  assert (Hr : r = {| result := Returned (create_response path o2);
                      calls := [GetContent (lookup_of cfg path);
                                CreateOrUpdateFileContents write];
                      world := w2 |}).
  { subst r. simpl. rewrite (checkApiKey_authorized _ _ _ Hauth).
    apply (run_api_create W octokit cfg req w path content o w1 o2 w2
             Tp Tc Hget Hput). }
  exists write. rewrite Hr. simpl. repeat split.
  - intros Hm. rewrite Hm. reflexivity.
  - intros w3 Hput'. rewrite Hput in Hput'. injection Hput' as -> _.
    reflexivity.
Qed.

Lemma create_reports_updated_path_witness :
  let r := run Memory.octokit
             (app Memory.cfg POST_api_create
                (Memory.request_of (Some "secret") None (Some "a.txt")
                   (Some "hi") None))
             Memory.world0 in
  exists write : createOrUpdate_params,
    calls r = [GetContent (lookup_of Memory.cfg "a.txt");
               CreateOrUpdateFileContents write]
    /\ (@None string = None -> cu_message write = "Update a.txt")
    /\ (forall w2,
          createOrUpdateFileContents Memory.octokit write Memory.world0
          = (Fulfilled tt, w2) ->
          result r =
          Returned {| status := 200;
                      payload := JObj [("success", JBool true);
                                       ("message", JStr "Updated a.txt")] |}).
Proof.
  apply (create_reports_updated_path _ Memory.octokit Memory.cfg
           (Memory.request_of (Some "secret") None (Some "a.txt")
              (Some "hi") None)
           Memory.world0 "a.txt" "hi" (Rejected "Not Found") Memory.world0).
  - apply authorized_secret.
  - reflexivity.
  - discriminate.
  - reflexivity.
  - discriminate.
  - reflexivity.
Defined.

Lemma delete_each_length
  (W : Type) (octokit : remote W) (cfg : config) (files : list entry) (w : W) :
  List.length (fst (delete_each octokit cfg files w)) = List.length files.
Proof.
  revert w. induction files as [|f rest IH]; intros w; simpl.
  - reflexivity.
  - destruct (deleteFile octokit (delete_of cfg f) w) as [o w1].
    specialize (IH w1).
    destruct (delete_each octokit cfg rest w1) as [os w2].
    simpl in *. now rewrite IH.
Qed.

Lemma item_results_length (files : list entry) (answers : list (outcome unit)) :
  List.length answers = List.length files ->
  List.length (item_results files answers) = List.length files.
Proof.
  intros H. unfold item_results.
  rewrite length_map, length_combine, H. lia.
Qed.

Lemma item_results_shape (files : list entry) (answers : list (outcome unit)) :
  Forall item_outcome_shape (item_results files answers).
Proof.
  unfold item_results. apply Forall_forall. intros j Hj.
  apply in_map_iff in Hj. destruct Hj as ([f o] & <- & _).
  exists (item_path f). simpl. destruct o as [[]|e].
  - left. reflexivity.
  - right. exists e. reflexivity.
Qed.

(** The loop of lines 81-97: one delete per entry of type "file", in the
    order of the listing, each answer turned into its own entry. *)
Lemma run_delete_loop
  (W : Type) (octokit : remote W) (cfg : config)
  (items : list entry) (acc : list json) (w : W) :
  run octokit (for_of items (delete_item cfg) acc) w =
  {| result :=
       Returned
         (acc ++ item_results (filter is_file items)
                   (fst (delete_each octokit cfg (filter is_file items) w)));
     calls := map (fun f => DeleteFile (delete_of cfg f))
                (filter is_file items);
     world := snd (delete_each octokit cfg (filter is_file items) w) |}.
Proof.
  revert acc w. induction items as [|item rest IH]; intros acc w.
  - simpl. now rewrite app_nil_r.
  - cbn [for_of filter]. unfold delete_item at 1. fold (is_file item).
    destruct (is_file item) eqn:Hty.
    + change (octokit_repos.deleteFile _)
        with (AwaitDeleteFile (delete_of cfg item) (@settle unit)).
      cbn [bind try_catch run delete_each].
      destruct (deleteFile octokit (delete_of cfg item) w) as [o w1].
      destruct o as [[]|e]; cbn [settle bind try_catch]; rewrite IH;
        destruct (delete_each octokit cfg (filter is_file rest) w1)
          as [os w2];
        unfold called, item_results; cbn; now rewrite <- app_assoc.
    + cbn [bind]. apply IH.
Qed.

(** Running [m] then [f]: the calls of [m] come first, and [f] starts from
    the state [m] left; a throw in [m] skips [f]. *)
Lemma run_bind
  (A B W : Type) (octokit : remote W) (m : prog A) (f : A -> prog B) (w : W) :
  run octokit (bind m f) w =
  match result (run octokit m w) with
  | Returned a =>
      let r := run octokit (f a) (world (run octokit m w)) in
      {| result := result r;
         calls := calls (run octokit m w) ++ calls r;
         world := world r |}
  | Thrown e =>
      {| result := Thrown e;
         calls := calls (run octokit m w);
         world := world (run octokit m w) |}
  end.
Proof.
  revert w.
  induction m as [a | e | p k IH | p k IH | p k IH]; intros w; cbn [bind run].
  - cbn. destruct (run octokit (f a) w); reflexivity.
  - reflexivity.
  - destruct (getContent octokit p w) as [o w1]. rewrite IH.
    unfold called. cbn.
    destruct (result (run octokit (k o) w1)); reflexivity.
  - destruct (deleteFile octokit p w) as [o w1]. rewrite IH.
    unfold called. cbn.
    destruct (result (run octokit (k o) w1)); reflexivity.
  - destruct (createOrUpdateFileContents octokit p w) as [o w1]. rewrite IH.
    unfold called. cbn.
    destruct (result (run octokit (k o) w1)); reflexivity.
Qed.

(** Running [try m catch h]: a throw in [m] runs [h] from the state [m]
    left, after the calls [m] made. *)
Lemma run_try_catch
  (A W : Type) (octokit : remote W) (m : prog A) (h : string -> prog A)
  (w : W) :
  run octokit (try_catch m h) w =
  match result (run octokit m w) with
  | Returned a =>
      {| result := Returned a;
         calls := calls (run octokit m w);
         world := world (run octokit m w) |}
  | Thrown e =>
      let r := run octokit (h e) (world (run octokit m w)) in
      {| result := result r;
         calls := calls (run octokit m w) ++ calls r;
         world := world r |}
  end.
Proof.
  revert w.
  induction m as [a | e | p k IH | p k IH | p k IH]; intros w;
    cbn [try_catch run].
  - reflexivity.
  - cbn. destruct (run octokit (h e) w); reflexivity.
  - destruct (getContent octokit p w) as [o w1]. rewrite IH.
    unfold called. cbn.
    destruct (result (run octokit (k o) w1)); reflexivity.
  - destruct (deleteFile octokit p w) as [o w1]. rewrite IH.
    unfold called. cbn.
    destruct (result (run octokit (k o) w1)); reflexivity.
  - destruct (createOrUpdateFileContents octokit p w) as [o w1]. rewrite IH.
    unfold called. cbn.
    destruct (result (run octokit (k o) w1)); reflexivity.
Qed.

(** One run of the delete handler on a path that resolves to a listing. *)
Lemma run_api_delete_directory
  (W : Type) (octokit : remote W) (cfg : config) (req : request) (w : W)
  (path : string) (items : list entry) (w1 : W) :
  truthy (body_path (body req)) = Some path ->
  getContent octokit (lookup_of cfg path) w = (Fulfilled (Listing items), w1) ->
  run octokit (api_delete cfg req) w =
  {| result :=
       Returned
         (directory_response path
            (item_results (filter is_file items)
               (fst (delete_each octokit cfg (filter is_file items) w1))));
     calls := GetContent (lookup_of cfg path)
              :: map (fun f => DeleteFile (delete_of cfg f))
                   (filter is_file items);
     world := snd (delete_each octokit cfg (filter is_file items) w1) |}.
Proof.
  intros Ht Hget. unfold api_delete. rewrite Ht.
  change (octokit_repos.getContent _)
    with (AwaitGetContent (lookup_of cfg path) (@settle repo_content)).
  cbn [bind try_catch run]. rewrite Hget.
  cbn [settle bind try_catch].
  rewrite run_try_catch, run_bind, run_delete_loop.
  unfold called. cbn [result calls world run app].
  rewrite app_nil_r. reflexivity.
Qed.

(** C2. For an authorized delete request whose path resolves to a listing
    with N entries of type "file": after the lookup the handler makes exactly
    N deleteFile calls, one per file and in the order of the listing, each
    asked of the remote in the state the previous one left; [results] has N
    entries, the entry of a file being [{success: true, path}] when its
    delete was fulfilled and [{error, path}] when it was rejected; and the
    answer is 200 with [success: true] whatever the deletes settled to. *)
Theorem directory_delete_visits_every_file {rt : node}
  (W : Type) (octokit : remote W) (cfg : config) (req : request) (w : W)
  (path : string) (items : list entry) (w1 : W) :
  authorized cfg req ->
  body_path (body req) = Some path -> path <> "" ->
  getContent octokit (lookup_of cfg path) w = (Fulfilled (Listing items), w1) ->
  let files := filter is_file items in
  let answers := fst (delete_each octokit cfg files w1) in
  let results := item_results files answers in
  let r := run octokit (app cfg POST_api_delete req) w in
  calls r = GetContent (lookup_of cfg path)
            :: map (fun f => DeleteFile (delete_of cfg f)) files
  /\ List.length (filter is_delete (calls r)) = List.length files
  /\ List.length results = List.length files
  /\ result r =
     Returned
       {| status := 200;
          payload := JObj [("success", JBool true);
                           ("results", JArr results);
                           ("message",
                            JStr ("Processed directory " ++ path))] |}
  /\ world r = snd (delete_each octokit cfg files w1).
Proof.
  intros Hauth Hp Hne Hget files answers results r.
  assert (Ht : truthy (body_path (body req)) = Some path)
    by (apply truthy_Some; auto).
  assert (Hr : r = run octokit (api_delete cfg req) w).
  { subst r. simpl app. now rewrite (checkApiKey_authorized _ _ _ Hauth). }
  rewrite (run_api_delete_directory W octokit cfg req w path items w1 Ht Hget)
    in Hr.
  rewrite Hr. cbn [calls result world].
  split; [reflexivity |]. split.
  - cbn [filter is_delete]. fold files.
    clear. induction files as [|f rest IH]; [reflexivity |].
    cbn. now rewrite IH.
  - split; [| split; reflexivity].
    apply item_results_length, delete_each_length.
Qed.

Lemma directory_delete_visits_every_file_witness :
  let req := Memory.request_of (Some "secret") None (Some "docs") None None in
  let files := filter is_file
                 [Memory.doc_a; Memory.doc_img; Memory.doc_b; Memory.doc_c] in
  let answers :=
    fst (delete_each Memory.octokit Memory.cfg files Memory.world0) in
  let results := item_results files answers in
  let r := run Memory.octokit (app Memory.cfg POST_api_delete req)
             Memory.world0 in
  calls r = GetContent (lookup_of Memory.cfg "docs")
            :: map (fun f => DeleteFile (delete_of Memory.cfg f)) files
  /\ List.length (filter is_delete (calls r)) = List.length files
  /\ List.length results = List.length files
  /\ result r =
     Returned
       {| status := 200;
          payload := JObj [("success", JBool true);
                           ("results", JArr results);
                           ("message", JStr "Processed directory docs")] |}
  /\ world r = snd (delete_each Memory.octokit Memory.cfg files Memory.world0).
Proof.
  apply (directory_delete_visits_every_file _ Memory.octokit Memory.cfg
           (Memory.request_of (Some "secret") None (Some "docs") None None)
           Memory.world0 "docs"
           [Memory.doc_a; Memory.doc_img; Memory.doc_b; Memory.doc_c]
           Memory.world0).
  - apply authorized_secret.
  - reflexivity.
  - discriminate.
  - reflexivity.
Defined.

Lemma item_outcome_has_no_message (j : json) :
  item_outcome_shape j ->
  field "message" j = None /\ OperationResult_shape j = false.
Proof.
  intros (p & [-> | (e & ->)]); split; reflexivity.
Qed.

(** C8, as the specification states it, fails: deleting the directory [docs]
    of the in-memory repository gives three per-item entries, none of which
    carries a [message], and the entry of the rejected delete carries no
    [success] field either. *)
Lemma directory_results_are_not_OperationResults :
  let r := run Memory.octokit
             (app Memory.cfg POST_api_delete
                (Memory.request_of (Some "secret") None (Some "docs") None
                   None))
             Memory.world0 in
  let results :=
    [JObj [("success", JBool true); ("path", JStr "docs/a.md")];
     JObj [("error", JStr "Repository rule violations found");
           ("path", JStr "docs/b.md")];
     JObj [("success", JBool true); ("path", JStr "docs/c.md")]] in
  result r = Returned (directory_response "docs" results)
  /\ map OperationResult_shape results = [false; false; false]
  /\ map (field "message") results = [None; None; None]
  /\ map (field "success") results = [Some (JBool true); None; Some (JBool true)].
Proof. repeat split. Qed.

Lemma item_results_Forall2 (files : list entry) (answers : list (outcome unit)) :
  Forall2
    (fun fo j =>
       j = match snd fo with
           | Fulfilled _ =>
               JObj [("success", JBool true);
                     ("path", JStr (item_path (fst fo)))]
           | Rejected e =>
               JObj [("error", JStr e); ("path", JStr (item_path (fst fo)))]
           end)
    (combine files answers) (item_results files answers).
Proof.
  unfold item_results.
  induction (combine files answers) as [|[f o] rest IH]; cbn [map].
  - constructor.
  - constructor; [destruct o as [[]|e]; reflexivity | exact IH].
Qed.

(** C8, amended. Every per-item outcome of a directory delete is either
    [{success: true, path}], for a delete that was fulfilled, or
    [{error, path}], for one that was rejected: the entries pair off with the
    files of the listing and the outcomes of their deletes, each entry
    carries the path of its file, [success] is present (and true) exactly on
    the entries of fulfilled deletes, [error] exactly on those of rejected
    ones, with the message of the rejection, and no entry carries a
    [message]. *)
Theorem directory_delete_item_shapes {rt : node}
  (W : Type) (octokit : remote W) (cfg : config) (req : request) (w : W)
  (path : string) (items : list entry) (w1 : W) :
  authorized cfg req ->
  body_path (body req) = Some path -> path <> "" ->
  getContent octokit (lookup_of cfg path) w = (Fulfilled (Listing items), w1) ->
  let files := filter is_file items in
  let answers := fst (delete_each octokit cfg files w1) in
  exists results : list json,
    result (run octokit (app cfg POST_api_delete req) w)
    = Returned
        {| status := 200;
           payload := JObj [("success", JBool true);
                            ("results", JArr results);
                            ("message",
                             JStr ("Processed directory " ++ path))] |}
    /\ List.length answers = List.length files
    /\ Forall2
         (fun fo j =>
            j = match snd fo with
                | Fulfilled _ =>
                    JObj [("success", JBool true);
                          ("path", JStr (item_path (fst fo)))]
                | Rejected e =>
                    JObj [("error", JStr e);
                          ("path", JStr (item_path (fst fo)))]
                end)
         (combine files answers) results
    /\ Forall item_outcome_shape results
    /\ Forall (fun j => field "message" j = None) results.
Proof.
  intros Hauth Hp Hne Hget files answers.
  assert (Ht : truthy (body_path (body req)) = Some path)
    by (apply truthy_Some; auto).
  simpl app. rewrite (checkApiKey_authorized _ _ _ Hauth).
  rewrite (run_api_delete_directory W octokit cfg req w path items w1 Ht Hget).
  exists (item_results files answers). split; [reflexivity |].
  split; [apply delete_each_length |].
  split; [apply item_results_Forall2 |].
  pose proof (item_results_shape files answers) as Hs.
  split; [exact Hs |].
  eapply Forall_impl; [| exact Hs].
  intros j Hj. apply (item_outcome_has_no_message j Hj).
Qed.

Lemma directory_delete_item_shapes_witness :
  result (run Memory.octokit
            (app Memory.cfg POST_api_delete
               (Memory.request_of (Some "secret") None (Some "docs") None
                  None))
            Memory.world0)
  = Returned
      {| status := 200;
         payload :=
           JObj [("success", JBool true);
                 ("results",
                  JArr [JObj [("success", JBool true);
                              ("path", JStr "docs/a.md")];
                        JObj [("error",
                               JStr "Repository rule violations found");
                              ("path", JStr "docs/b.md")];
                        JObj [("success", JBool true);
                              ("path", JStr "docs/c.md")]]);
                 ("message", JStr "Processed directory docs")] |}.
Proof.
  destruct (directory_delete_item_shapes _ Memory.octokit Memory.cfg
              (Memory.request_of (Some "secret") None (Some "docs") None None)
              Memory.world0 "docs"
              [Memory.doc_a; Memory.doc_img; Memory.doc_b; Memory.doc_c]
              Memory.world0
              (authorized_secret _ _ _ _) eq_refl ltac:(discriminate) eq_refl)
    as (results & Hres & _ & Hpair & _).
  rewrite Hres.
  inversion Hpair as [| fo1 j1 l1 r1 E1 T1]; subst.
  inversion T1 as [| fo2 j2 l2 r2 E2 T2]; subst.
  inversion T2 as [| fo3 j3 l3 r3 E3 T3]; subst.
  inversion T3; subst.
  reflexivity.
Defined.

(** ** The combined endpoint *)

Lemma action_is_false (action : option json) (name : string) :
  action <> Some (JStr name) -> action_is action name = false.
Proof.
  intros H. destruct action as [[| | |s| |]|]; try reflexivity.
  simpl. destruct (String.eqb_spec s name) as [->|]; [now elim H | reflexivity].
Qed.

Lemma checkApiKey_same_key (cfg : config) (a b : request)
  (next : prog response) :
  x_api_key a = x_api_key b ->
  checkApiKey cfg a next = checkApiKey cfg b next.
Proof. intros H. unfold checkApiKey. now rewrite H. Qed.

(** With [action: "list"] the combined handler is the list handler, on the
    path it reads from the body instead of the query. *)
Lemma api_claude_list {rt : node} (cfg : config) (claude dedicated : request) :
  body_action (body claude) = Some (JStr "list") ->
  query_path dedicated = body_path (body claude) ->
  api_claude cfg claude = api_list cfg dedicated.
Proof.
  intros Ha Hq. unfold api_claude, api_list. rewrite Ha, Hq. reflexivity.
Qed.

Lemma api_claude_delete {rt : node} (cfg : config)
  (claude dedicated : request) :
  body_action (body claude) = Some (JStr "delete") ->
  body_path (body dedicated) = body_path (body claude) ->
  api_claude cfg claude = api_delete cfg dedicated.
Proof.
  intros Ha Hp. unfold api_claude, api_delete. rewrite Ha, Hp. reflexivity.
Qed.

Lemma api_claude_create {rt : node} (cfg : config)
  (claude dedicated : request) :
  body_action (body claude) = Some (JStr "create") ->
  body_path (body dedicated) = body_path (body claude) ->
  body_content (body dedicated) = body_content (body claude) ->
  body_message (body dedicated) = body_message (body claude) ->
  api_claude cfg claude = api_create cfg dedicated.
Proof.
  intros Ha Hp Hc Hm. unfold api_claude, api_create.
  rewrite Ha, Hp, Hc, Hm. reflexivity.
Qed.

(** C3. Take a request [claude] to the combined endpoint and a request
    [dedicated] to a dedicated route, with the same key.  Against every
    remote and from every state, [claude] with action "list" is answered as
    GET /api/list is on the query path that [claude] has as the path of its
    body; with action "delete", as POST /api/delete is on the same path; with
    action "create", as POST /api/create is on the same path, content and
    message: same status and body, same remote calls, same final state.  With
    any other action, or none, an authorized request is answered 400 with
    [{error: "Invalid action. Use 'list', 'delete', or 'create'"}] and no
    call is made. *)
Theorem claude_dispatch_matches_routes {rt : node}
  (W : Type) (octokit : remote W) (cfg : config)
  (claude dedicated : request) (w : W) :
  x_api_key dedicated = x_api_key claude ->
  (body_action (body claude) = Some (JStr "list") ->
   query_path dedicated = body_path (body claude) ->
   run octokit (app cfg POST_api_claude claude) w
   = run octokit (app cfg GET_api_list dedicated) w)
  /\ (body_action (body claude) = Some (JStr "delete") ->
      body_path (body dedicated) = body_path (body claude) ->
      run octokit (app cfg POST_api_claude claude) w
      = run octokit (app cfg POST_api_delete dedicated) w)
  /\ (body_action (body claude) = Some (JStr "create") ->
      body_path (body dedicated) = body_path (body claude) ->
      body_content (body dedicated) = body_content (body claude) ->
      body_message (body dedicated) = body_message (body claude) ->
      run octokit (app cfg POST_api_claude claude) w
      = run octokit (app cfg POST_api_create dedicated) w)
  /\ (authorized cfg claude ->
      body_action (body claude) <> Some (JStr "list") ->
      body_action (body claude) <> Some (JStr "delete") ->
      body_action (body claude) <> Some (JStr "create") ->
      run octokit (app cfg POST_api_claude claude) w
      = {| result :=
             Returned
               {| status := 400;
                  payload :=
                    JObj [("error",
                           JStr "Invalid action. Use 'list', 'delete', or 'create'")] |};
           calls := []; world := w |}).
Proof.
  intros Hkey. repeat split.
  - intros Ha Hq. cbn [app].
    rewrite (api_claude_list cfg claude dedicated Ha Hq).
    now rewrite (checkApiKey_same_key cfg dedicated claude _ Hkey).
  - intros Ha Hp. cbn [app].
    rewrite (api_claude_delete cfg claude dedicated Ha Hp).
    now rewrite (checkApiKey_same_key cfg dedicated claude _ Hkey).
  - intros Ha Hp Hc Hm. cbn [app].
    rewrite (api_claude_create cfg claude dedicated Ha Hp Hc Hm).
    now rewrite (checkApiKey_same_key cfg dedicated claude _ Hkey).
  - intros Hauth Hl Hd Hc. cbn [app].
    rewrite (checkApiKey_authorized _ _ _ Hauth). unfold api_claude.
    rewrite (action_is_false _ _ Hl), (action_is_false _ _ Hd),
            (action_is_false _ _ Hc).
    reflexivity.
Qed.

Lemma claude_dispatch_matches_routes_witness :
  let no_body :=
    {| body_action := None; body_path := None;
       body_content := None; body_message := None |} in
  let claude action path content :=
    {| x_api_key := Some "secret"; query_path := None;
       body := {| body_action := Some (JStr action); body_path := Some path;
                  body_content := content; body_message := None |} |} in
  let list_req :=
    {| x_api_key := Some "secret"; query_path := Some "docs";
       body := no_body |} in
  let delete_req :=
    {| x_api_key := Some "secret"; query_path := None;
       body := {| body_action := None; body_path := Some "docs";
                  body_content := None; body_message := None |} |} in
  let create_req :=
    {| x_api_key := Some "secret"; query_path := None;
       body := {| body_action := None; body_path := Some "a.txt";
                  body_content := Some (JStr "hi");
                  body_message := None |} |} in
  (run Memory.octokit
     (app Memory.cfg POST_api_claude (claude "list" "docs" None))
     Memory.world0
   = run Memory.octokit (app Memory.cfg GET_api_list list_req) Memory.world0
   /\ calls (run Memory.octokit
               (app Memory.cfg POST_api_claude (claude "list" "docs" None))
               Memory.world0)
      = [GetContent (lookup_of Memory.cfg "docs")])
  /\ run Memory.octokit
       (app Memory.cfg POST_api_claude (claude "delete" "docs" None))
       Memory.world0
     = run Memory.octokit (app Memory.cfg POST_api_delete delete_req)
         Memory.world0
  /\ run Memory.octokit
       (app Memory.cfg POST_api_claude
          (claude "create" "a.txt" (Some (JStr "hi"))))
       Memory.world0
     = run Memory.octokit (app Memory.cfg POST_api_create create_req)
         Memory.world0
  /\ run Memory.octokit
       (app Memory.cfg POST_api_claude (claude "rename" "a.txt" None))
       Memory.world0
     = {| result :=
            Returned
              {| status := 400;
                 payload :=
                   JObj [("error",
                          JStr "Invalid action. Use 'list', 'delete', or 'create'")] |};
          calls := []; world := Memory.world0 |}.
Proof.
  intros no_body claude list_req delete_req create_req.
  pose proof (claude_dispatch_matches_routes _ Memory.octokit Memory.cfg
                (claude "list" "docs" None) list_req Memory.world0 eq_refl)
    as (H1 & _).
  pose proof (claude_dispatch_matches_routes _ Memory.octokit Memory.cfg
                (claude "delete" "docs" None) delete_req Memory.world0
                eq_refl)
    as (_ & H2 & _).
  pose proof (claude_dispatch_matches_routes _ Memory.octokit Memory.cfg
                (claude "create" "a.txt" (Some (JStr "hi"))) create_req
                Memory.world0 eq_refl)
    as (_ & _ & H3 & _).
  pose proof (claude_dispatch_matches_routes _ Memory.octokit Memory.cfg
                (claude "rename" "a.txt" None) list_req Memory.world0
                eq_refl)
    as (_ & _ & _ & H4).
  split; [split; [apply H1; reflexivity | reflexivity] |].
  split; [apply H2; reflexivity |].
  split; [apply H3; reflexivity |].
  apply H4.
  - exists "secret". repeat split. discriminate.
  - discriminate.
  - discriminate.
  - discriminate.
Defined.

(** * Further properties of the handlers *)

(** ** The routes one by one *)

(** GET /api sits before the gate: whatever the configuration, the
    headers and the remote, it answers 200 with the fixed message, calls
    nothing and leaves the remote as it was. *)
Lemma root_answers_without_key {rt : node}
  (W : Type) (octokit : remote W) (cfg : config) (req : request) (w : W) :
  run octokit (app cfg GET_api req) w
  = {| result := Returned running_response; calls := []; world := w |}.
Proof. reflexivity. Qed.

(** One run of the list handler: a single lookup, answered verbatim. *)
Lemma run_api_list
  (W : Type) (octokit : remote W) (cfg : config) (req : request) (w : W)
  (o : outcome repo_content) (w1 : W) :
  getContent octokit (lookup_of cfg (or_else (query_path req) "")) w
  = (o, w1) ->
  run octokit (api_list cfg req) w
  = {| result := Returned (list_response o);
       calls := [GetContent (lookup_of cfg (or_else (query_path req) ""))];
       world := w1 |}.
Proof.
  intros Hget. unfold api_list, lookup_of in *. cbn. rewrite Hget.
  destruct o; reflexivity.
Qed.

(** X1. An authorized list request with a non-empty query path makes one
    call, the lookup of that path: a fulfilled lookup is answered 200 with
    the object the remote sent, or the array of the objects it sent, with all
    their properties as they came; a rejected one is answered 500 with the
    message of the rejection. *)
Theorem list_forwards_the_lookup {rt : node}
  (W : Type) (octokit : remote W) (cfg : config) (req : request) (w : W)
  (path : string) (o : outcome repo_content) (w1 : W) :
  authorized cfg req ->
  query_path req = Some path -> path <> "" ->
  getContent octokit (lookup_of cfg path) w = (o, w1) ->
  run octokit (app cfg GET_api_list req) w
  = {| result :=
         Returned
           match o with
           | Fulfilled (File e) =>
               {| status := 200; payload := item_object e |}
           | Fulfilled (Listing items) =>
               {| status := 200; payload := JArr (map item_object items) |}
           | Rejected e =>
               {| status := 500; payload := JObj [("error", JStr e)] |}
           end;
       calls := [GetContent (lookup_of cfg path)];
       world := w1 |}.
Proof.
  intros Hauth Hq Hne Hget. cbn [app].
  rewrite (checkApiKey_authorized _ _ _ Hauth).
  assert (Hp : or_else (query_path req) "" = path).
  { unfold or_else.
    now rewrite (proj2 (truthy_Some (query_path req) path) (conj Hq Hne)). }
  rewrite <- Hp in Hget. rewrite (run_api_list _ _ _ _ _ _ _ Hget), Hp.
  destruct o as [[e | items] | reason]; reflexivity.
Qed.

Lemma list_forwards_the_lookup_witness :
  run Memory.octokit
    (app Memory.cfg GET_api_list
       (Memory.request_of (Some "secret") None (Some "docs/a.md") None None))
    Memory.world0
  = {| result :=
         Returned
           {| status := 200;
              payload :=
                JObj [("name", JStr "docs/a.md"); ("path", JStr "docs/a.md");
                      ("sha", JStr "s1"); ("size", JNum "12");
                      ("type", JStr "file")] |};
       calls := [GetContent (lookup_of Memory.cfg "docs/a.md")];
       world := Memory.world0 |}.
Proof.
  apply (list_forwards_the_lookup _ Memory.octokit Memory.cfg
           (Memory.request_of (Some "secret") None (Some "docs/a.md") None
              None)
           Memory.world0 "docs/a.md" (Fulfilled (File Memory.doc_a))
           Memory.world0).
  - apply authorized_secret.
  - reflexivity.
  - discriminate.
  - reflexivity.
Defined.

(** X2. An authorized list request with no query path, or an empty one,
    looks up the empty path, the root of the repository. *)
Theorem list_defaults_to_the_root {rt : node}
  (W : Type) (octokit : remote W) (cfg : config) (req : request) (w : W)
  (o : outcome repo_content) (w1 : W) :
  authorized cfg req ->
  query_path req = None \/ query_path req = Some "" ->
  getContent octokit (lookup_of cfg "") w = (o, w1) ->
  run octokit (app cfg GET_api_list req) w
  = {| result :=
         Returned
           match o with
           | Fulfilled (File e) =>
               {| status := 200; payload := item_object e |}
           | Fulfilled (Listing items) =>
               {| status := 200; payload := JArr (map item_object items) |}
           | Rejected e =>
               {| status := 500; payload := JObj [("error", JStr e)] |}
           end;
       calls := [GetContent (lookup_of cfg "")];
       world := w1 |}.
Proof.
  intros Hauth Hq Hget. cbn [app].
  rewrite (checkApiKey_authorized _ _ _ Hauth).
  assert (Hp : or_else (query_path req) "" = "").
  { unfold or_else. now rewrite (proj2 (truthy_None (query_path req)) Hq). }
  rewrite <- Hp in Hget. rewrite (run_api_list _ _ _ _ _ _ _ Hget), Hp.
  destruct o as [[e | items] | reason]; reflexivity.
Qed.

Lemma list_defaults_to_the_root_witness :
  run Memory.octokit
    (app Memory.cfg GET_api_list
       (Memory.request_of (Some "secret") None (Some "") None None))
    Memory.world0
  = {| result :=
         Returned
           {| status := 500; payload := JObj [("error", JStr "Not Found")] |};
       calls := [GetContent (lookup_of Memory.cfg "")];
       world := Memory.world0 |}.
Proof.
  apply (list_defaults_to_the_root _ Memory.octokit Memory.cfg
           (Memory.request_of (Some "secret") None (Some "") None None)
           Memory.world0 (Rejected "Not Found") Memory.world0).
  - apply authorized_secret.
  - right. reflexivity.
  - reflexivity.
Defined.

(** X3. With action "list" the combined endpoint takes the path from the
    body, not from the query: whatever the query says, an authorized request
    makes one lookup, of the body's path (the root when it is missing or
    empty), and answers 200 with the object or the array of objects the
    remote sent, as they came, or 500 with the message of the rejection. *)
Theorem claude_list_reads_the_body {rt : node}
  (W : Type) (octokit : remote W) (cfg : config) (req : request) (w : W)
  (o : outcome repo_content) (w1 : W) :
  authorized cfg req ->
  body_action (body req) = Some (JStr "list") ->
  getContent octokit (lookup_of cfg (or_else (body_path (body req)) "")) w
  = (o, w1) ->
  run octokit (app cfg POST_api_claude req) w
  = {| result :=
         Returned
           match o with
           | Fulfilled (File e) =>
               {| status := 200; payload := item_object e |}
           | Fulfilled (Listing items) =>
               {| status := 200; payload := JArr (map item_object items) |}
           | Rejected e =>
               {| status := 500; payload := JObj [("error", JStr e)] |}
           end;
       calls :=
         [GetContent (lookup_of cfg (or_else (body_path (body req)) ""))];
       world := w1 |}.
Proof.
  intros Hauth Ha Hget. cbn [app].
  rewrite (checkApiKey_authorized _ _ _ Hauth).
  unfold api_claude, lookup_of in *. rewrite Ha. cbn. rewrite Hget.
  destruct o as [[e | items] | reason]; reflexivity.
Qed.

Lemma claude_list_reads_the_body_witness :
  let req :=
    {| x_api_key := Some "secret"; query_path := Some "README.md";
       body := {| body_action := Some (JStr "list");
                  body_path := Some "docs/a.md";
                  body_content := None; body_message := None |} |} in
  run Memory.octokit (app Memory.cfg POST_api_claude req) Memory.world0
  = {| result :=
         Returned
           {| status := 200;
              payload :=
                JObj [("name", JStr "docs/a.md"); ("path", JStr "docs/a.md");
                      ("sha", JStr "s1"); ("size", JNum "12");
                      ("type", JStr "file")] |};
       calls := [GetContent (lookup_of Memory.cfg "docs/a.md")];
       world := Memory.world0 |}.
Proof.
  apply (claude_list_reads_the_body _ Memory.octokit Memory.cfg
           {| x_api_key := Some "secret"; query_path := Some "README.md";
              body := {| body_action := Some (JStr "list");
                         body_path := Some "docs/a.md";
                         body_content := None; body_message := None |} |}
           Memory.world0 (Fulfilled (File Memory.doc_a)) Memory.world0).
  - exists "secret". repeat split. discriminate.
  - reflexivity.
  - reflexivity.
Defined.

(** One run of the delete handler on a path that resolves to a file. *)
Lemma run_api_delete_file
  (W : Type) (octokit : remote W) (cfg : config) (req : request) (w : W)
  (path : string) (e : entry) (w1 : W) (o : outcome unit) (w2 : W) :
  truthy (body_path (body req)) = Some path ->
  getContent octokit (lookup_of cfg path) w = (Fulfilled (File e), w1) ->
  deleteFile octokit
    {| df_owner := REPO_OWNER cfg; df_repo := REPO_NAME cfg;
       df_path := path; df_message := "Delete " ++ path;
       df_sha := item_sha e |} w1 = (o, w2) ->
  run octokit (api_delete cfg req) w
  = {| result := Returned (delete_file_response path o);
       calls :=
         [GetContent (lookup_of cfg path);
          DeleteFile
            {| df_owner := REPO_OWNER cfg; df_repo := REPO_NAME cfg;
               df_path := path; df_message := "Delete " ++ path;
               df_sha := item_sha e |}];
       world := w2 |}.
Proof.
  intros Ht Hget Hdel. unfold api_delete. rewrite Ht.
  change (octokit_repos.getContent _)
    with (AwaitGetContent (lookup_of cfg path) (@settle repo_content)).
  cbn [bind try_catch run]. rewrite Hget.
  cbn [settle bind try_catch octokit_repos.deleteFile run]. rewrite Hdel.
  destruct o as [[]|m]; reflexivity.
Qed.

(** X4. For an authorized delete request whose path resolves to a single
    file, the handler makes one deleteFile call, for the request's path, with
    the sha the lookup returned and the commit message "Delete <path>".  When
    that delete is fulfilled the answer is 200 with
    [{success: true, message: "Deleted file <path>"}]; when it is rejected the
    answer is 500 with the message of the rejection. *)
Theorem file_delete_uses_the_resolved_sha {rt : node}
  (W : Type) (octokit : remote W) (cfg : config) (req : request) (w : W)
  (path : string) (e : entry) (w1 : W) (o : outcome unit) (w2 : W) :
  authorized cfg req ->
  body_path (body req) = Some path -> path <> "" ->
  getContent octokit (lookup_of cfg path) w = (Fulfilled (File e), w1) ->
  deleteFile octokit
    {| df_owner := REPO_OWNER cfg; df_repo := REPO_NAME cfg;
       df_path := path; df_message := "Delete " ++ path;
       df_sha := item_sha e |} w1 = (o, w2) ->
  run octokit (app cfg POST_api_delete req) w
  = {| result :=
         Returned
           match o with
           | Fulfilled _ =>
               {| status := 200;
                  payload := JObj [("success", JBool true);
                                   ("message",
                                    JStr ("Deleted file " ++ path))] |}
           | Rejected m =>
               {| status := 500; payload := JObj [("error", JStr m)] |}
           end;
       calls :=
         [GetContent (lookup_of cfg path);
          DeleteFile
            {| df_owner := REPO_OWNER cfg; df_repo := REPO_NAME cfg;
               df_path := path; df_message := "Delete " ++ path;
               df_sha := item_sha e |}];
       world := w2 |}.
Proof.
  intros Hauth Hp Hne Hget Hdel. cbn [app].
  rewrite (checkApiKey_authorized _ _ _ Hauth).
  assert (Ht : truthy (body_path (body req)) = Some path)
    by (apply truthy_Some; auto).
  rewrite (run_api_delete_file _ _ _ _ _ _ _ _ _ _ Ht Hget Hdel).
  destruct o; reflexivity.
Qed.

Lemma file_delete_uses_the_resolved_sha_witness :
  run Memory.octokit
    (app Memory.cfg POST_api_delete
       (Memory.request_of (Some "secret") None (Some "docs/b.md") None None))
    Memory.world0
  = {| result :=
         Returned
           {| status := 500;
              payload :=
                JObj [("error", JStr "Repository rule violations found")] |};
       calls :=
         [GetContent (lookup_of Memory.cfg "docs/b.md");
          DeleteFile
            {| df_owner := Some "octo"; df_repo := Some "site";
               df_path := "docs/b.md"; df_message := "Delete docs/b.md";
               df_sha := "s3" |}];
       world := Memory.world0 |}.
Proof.
  apply (file_delete_uses_the_resolved_sha _ Memory.octokit Memory.cfg
           (Memory.request_of (Some "secret") None (Some "docs/b.md") None
              None)
           Memory.world0 "docs/b.md" Memory.doc_b Memory.world0
           (Rejected "Repository rule violations found") Memory.world0).
  - apply authorized_secret.
  - reflexivity.
  - discriminate.
  - reflexivity.
  - reflexivity.
Defined.

Lemma filter_is_file_nil (items : list entry) :
  (forall item, In item items -> item_type item <> "file") ->
  filter is_file items = [].
Proof.
  intros H. induction items as [|item rest IH]; [reflexivity |].
  cbn [filter]. unfold is_file at 1.
  destruct (String.eqb_spec (item_type item) "file") as [E|_].
  - exfalso. apply (H item); [now left | exact E].
  - apply IH. intros i Hi. apply H. now right.
Qed.

(** X5. Only entries of type "file" are deleted; the handler does not
    descend into anything else.  When the listing has no such entry (an empty
    directory, or one holding only subdirectories), an authorized delete
    makes no deleteFile call at all and still answers 200 with
    [success: true] and an empty [results]. *)
Theorem directory_without_files_deletes_nothing {rt : node}
  (W : Type) (octokit : remote W) (cfg : config) (req : request) (w : W)
  (path : string) (items : list entry) (w1 : W) :
  authorized cfg req ->
  body_path (body req) = Some path -> path <> "" ->
  getContent octokit (lookup_of cfg path) w = (Fulfilled (Listing items), w1) ->
  (forall item, In item items -> item_type item <> "file") ->
  run octokit (app cfg POST_api_delete req) w
  = {| result :=
         Returned
           {| status := 200;
              payload := JObj [("success", JBool true);
                               ("results", JArr []);
                               ("message",
                                JStr ("Processed directory " ++ path))] |};
       calls := [GetContent (lookup_of cfg path)];
       world := w1 |}.
Proof.
  intros Hauth Hp Hne Hget Hno. cbn [app].
  rewrite (checkApiKey_authorized _ _ _ Hauth).
  assert (Ht : truthy (body_path (body req)) = Some path)
    by (apply truthy_Some; auto).
  rewrite (run_api_delete_directory W octokit cfg req w path items w1 Ht Hget).
  rewrite (filter_is_file_nil items Hno). reflexivity.
Qed.

Lemma directory_without_files_deletes_nothing_witness :
  let w := {| Memory.tree := [("assets", Listing [Memory.doc_img])];
              Memory.locked := [] |} in
  run Memory.octokit
    (app Memory.cfg POST_api_delete
       (Memory.request_of (Some "secret") None (Some "assets") None None))
    w
  = {| result :=
         Returned
           {| status := 200;
              payload := JObj [("success", JBool true);
                               ("results", JArr []);
                               ("message",
                                JStr "Processed directory assets")] |};
       calls := [GetContent (lookup_of Memory.cfg "assets")];
       world := w |}.
Proof.
  apply (directory_without_files_deletes_nothing _ Memory.octokit Memory.cfg
           (Memory.request_of (Some "secret") None (Some "assets") None None)
           {| Memory.tree := [("assets", Listing [Memory.doc_img])];
              Memory.locked := [] |}
           "assets" [Memory.doc_img]).
  - apply authorized_secret.
  - reflexivity.
  - discriminate.
  - reflexivity.
  - intros item [<- | []]. discriminate.
Defined.

Lemma item_results_fields (files : list entry) (answers : list (outcome unit)) :
  List.length answers = List.length files ->
  map (field "path") (item_results files answers)
  = map (fun f => Some (JStr (item_path f))) files
  /\ map (field "success") (item_results files answers)
     = map success_field answers
  /\ map (field "error") (item_results files answers)
     = map error_field answers.
Proof.
  revert answers. unfold item_results.
  induction files as [|f rest IH]; intros [|o os] Hlen;
    try discriminate Hlen.
  - repeat split.
  - injection Hlen as Hlen. destruct (IH os Hlen) as (H1 & H2 & H3).
    cbn [combine map fst snd]. rewrite H1, H2, H3.
    destruct o as [[]|e]; repeat split.
Qed.

(** X6. In the answer to a directory delete, the i-th entry of [results]
    is about the i-th file of the listing: it carries that file's path, it
    carries [success: true] exactly when the i-th delete was fulfilled, and
    it carries as [error] the message of the rejection exactly when the i-th
    delete was rejected. *)
Theorem directory_results_follow_the_listing {rt : node}
  (W : Type) (octokit : remote W) (cfg : config) (req : request) (w : W)
  (path : string) (items : list entry) (w1 : W) :
  authorized cfg req ->
  body_path (body req) = Some path -> path <> "" ->
  getContent octokit (lookup_of cfg path) w = (Fulfilled (Listing items), w1) ->
  let files := filter is_file items in
  let answers := fst (delete_each octokit cfg files w1) in
  exists results : list json,
    result (run octokit (app cfg POST_api_delete req) w)
    = Returned
        {| status := 200;
           payload := JObj [("success", JBool true);
                            ("results", JArr results);
                            ("message",
                             JStr ("Processed directory " ++ path))] |}
    /\ map (field "path") results
       = map (fun f => Some (JStr (item_path f))) files
    /\ map (field "success") results = map success_field answers
    /\ map (field "error") results = map error_field answers.
Proof.
  intros Hauth Hp Hne Hget files answers. cbn [app].
  rewrite (checkApiKey_authorized _ _ _ Hauth).
  assert (Ht : truthy (body_path (body req)) = Some path)
    by (apply truthy_Some; auto).
  rewrite (run_api_delete_directory W octokit cfg req w path items w1 Ht Hget).
  eexists. split; [reflexivity |].
  apply item_results_fields, delete_each_length.
Qed.

Lemma directory_results_follow_the_listing_witness :
  let files := filter is_file
                 [Memory.doc_a; Memory.doc_img; Memory.doc_b; Memory.doc_c] in
  let answers :=
    fst (delete_each Memory.octokit Memory.cfg files Memory.world0) in
  exists results : list json,
    result (run Memory.octokit
              (app Memory.cfg POST_api_delete
                 (Memory.request_of (Some "secret") None (Some "docs") None
                    None))
              Memory.world0)
    = Returned
        {| status := 200;
           payload := JObj [("success", JBool true);
                            ("results", JArr results);
                            ("message", JStr "Processed directory docs")] |}
    /\ map (field "path") results
       = map (fun f => Some (JStr (item_path f))) files
    /\ map (field "success") results = map success_field answers
    /\ map (field "error") results = map error_field answers.
Proof.
  apply (directory_results_follow_the_listing _ Memory.octokit Memory.cfg
           (Memory.request_of (Some "secret") None (Some "docs") None None)
           Memory.world0 "docs"
           [Memory.doc_a; Memory.doc_img; Memory.doc_b; Memory.doc_c]
           Memory.world0).
  - apply authorized_secret.
  - reflexivity.
  - discriminate.
  - reflexivity.
Defined.

(** X7. When the write of an authorized create request is rejected, the
    answer is 500 with the message of that rejection, passed on as it is;
    a rejected lookup leaves no trace in it. *)
Theorem rejected_write_is_reported {rt : node}
  (W : Type) (octokit : remote W) (cfg : config) (req : request) (w : W)
  (path content : string) (o : outcome repo_content) (w1 : W)
  (reason : string) (w2 : W) :
  authorized cfg req ->
  body_path (body req) = Some path -> path <> "" ->
  body_content (body req) = Some (JStr content) -> content <> "" ->
  getContent octokit (lookup_of cfg path) w = (o, w1) ->
  createOrUpdateFileContents octokit
    (write_of cfg path
       (or_else (body_message (body req)) ("Update " ++ path))
       (toString_base64 (Buffer_from content)) (resolved_sha o)) w1
  = (Rejected reason, w2) ->
  let r := run octokit (app cfg POST_api_create req) w in
  result r
  = Returned {| status := 500; payload := JObj [("error", JStr reason)] |}
  /\ List.length (calls r) = 2
  /\ world r = w2.
Proof.
  intros Hauth Hp Hpne Hc Hcne Hget Hput r. subst r. cbn [app].
  rewrite (checkApiKey_authorized _ _ _ Hauth).
  assert (Tp : truthy (body_path (body req)) = Some path)
    by (apply truthy_Some; auto).
  assert (Tc : truthy_value (body_content (body req)) = Some (JStr content))
    by (now apply truthy_value_text).
  rewrite (run_api_create W octokit cfg req w path content o w1 _ w2
             Tp Tc Hget Hput).
  repeat split.
Qed.

Lemma rejected_write_is_reported_witness :
  let r := run Memory.octokit
             (app Memory.cfg POST_api_create
                (Memory.request_of (Some "secret") None (Some "docs")
                   (Some "hi") None))
             Memory.world0 in
  result r
  = Returned {| status := 500;
                payload :=
                  JObj [("error",
                         JStr "Invalid request. sha wasn't supplied.")] |}
  /\ List.length (calls r) = 2
  /\ world r = Memory.world0.
Proof.
  apply (rejected_write_is_reported _ Memory.octokit Memory.cfg
           (Memory.request_of (Some "secret") None (Some "docs") (Some "hi")
              None)
           Memory.world0 "docs" "hi"
           (Fulfilled
              (Listing
                 [Memory.doc_a; Memory.doc_img; Memory.doc_b; Memory.doc_c]))
           Memory.world0 "Invalid request. sha wasn't supplied."
           Memory.world0).
  - apply authorized_secret.
  - reflexivity.
  - discriminate.
  - reflexivity.
  - discriminate.
  - reflexivity.
  - reflexivity.
Defined.

(** X8. An authorized create request that supplies a non-empty commit
    message has its write committed with exactly that message; an empty
    message counts as none, and the write is committed with
    "Update <path>". *)
Theorem commit_message_is_kept_unless_empty {rt : node}
  (W : Type) (octokit : remote W) (cfg : config) (req : request) (w : W)
  (path content message : string) :
  authorized cfg req ->
  body_path (body req) = Some path -> path <> "" ->
  body_content (body req) = Some (JStr content) -> content <> "" ->
  body_message (body req) = Some message ->
  exists (lookup : getContent_params) (write : createOrUpdate_params),
    calls (run octokit (app cfg POST_api_create req) w)
    = [GetContent lookup; CreateOrUpdateFileContents write]
    /\ (message <> "" -> cu_message write = message)
    /\ (message = "" -> cu_message write = ("Update " ++ path)%string).
Proof.
  intros Hauth Hp Hpne Hc Hcne Hm.
  assert (Tp : truthy (body_path (body req)) = Some path)
    by (apply truthy_Some; auto).
  assert (Tc : truthy_value (body_content (body req)) = Some (JStr content))
    by (now apply truthy_value_text).
  destruct (getContent octokit (lookup_of cfg path) w) as [o w1] eqn:Hget.
  set (write := write_of cfg path
                  (or_else (body_message (body req)) ("Update " ++ path))
                  (toString_base64 (Buffer_from content)) (resolved_sha o)).
  destruct (createOrUpdateFileContents octokit write w1) as [o2 w2] eqn:Hput.
  exists (lookup_of cfg path), write. cbn [app].
  rewrite (checkApiKey_authorized _ _ _ Hauth).
  rewrite (run_api_create W octokit cfg req w path content o w1 o2 w2
             Tp Tc Hget Hput).
  split; [reflexivity |]. subst write. cbn [cu_message write_of].
  unfold or_else. split.
  - intros Hne.
    now rewrite (proj2 (truthy_Some _ message) (conj Hm Hne)).
  - intros ->. now rewrite (proj2 (truthy_None _) (or_intror Hm)).
Qed.

Lemma commit_message_is_kept_unless_empty_witness :
  exists (lookup : getContent_params) (write : createOrUpdate_params),
    calls (run Memory.octokit
             (app Memory.cfg POST_api_create
                (Memory.request_of (Some "secret") None (Some "a.txt")
                   (Some "hi") (Some "")))
             Memory.world0)
    = [GetContent lookup; CreateOrUpdateFileContents write]
    /\ ("" <> "" -> cu_message write = "")
    /\ ("" = "" -> cu_message write = "Update a.txt").
Proof.
  apply (commit_message_is_kept_unless_empty _ Memory.octokit Memory.cfg
           (Memory.request_of (Some "secret") None (Some "a.txt") (Some "hi")
              (Some ""))
           Memory.world0 "a.txt" "hi" "").
  - apply authorized_secret.
  - reflexivity.
  - discriminate.
  - reflexivity.
  - discriminate.
  - reflexivity.
Defined.

(** ** The gate decides on the key alone *)

Lemma strict_neq_false (a b : option string) :
  strict_neq a b = false -> a = b.
Proof.
  destruct a as [x|], b as [y|]; simpl; try discriminate; try reflexivity.
  destruct (String.eqb_spec x y) as [->|]; [reflexivity | discriminate].
Qed.

(** X9. The gate lets a request through exactly when its [x-api-key]
    header is a non-empty string equal to the configured key: then it hands
    over to the route unchanged, and in every other case (also when header
    and configured key are both empty) it answers 401 instead of the
    route. *)
Theorem gate_passes_exactly_the_key (cfg : config) (req : request) :
  (authorized cfg req
   /\ forall next, checkApiKey cfg req next = next)
  \/ (~ authorized cfg req
      /\ forall next, checkApiKey cfg req next = Ret unauthorized_response).
Proof.
  destruct (falsy (x_api_key req)
            || strict_neq (x_api_key req) (API_KEY cfg)) eqn:Hgate.
  - right. split.
    + intros Hauth.
      pose proof (checkApiKey_authorized cfg req (Throw "") Hauth) as H.
      unfold checkApiKey in H. rewrite Hgate in H. discriminate H.
    + intros next. unfold checkApiKey. now rewrite Hgate.
  - left. apply orb_false_elim in Hgate. destruct Hgate as [Hf Hn].
    assert (Hauth : authorized cfg req).
    { unfold falsy in Hf.
      destruct (truthy (x_api_key req)) as [key|] eqn:Ht; [| discriminate].
      apply truthy_Some in Ht. destruct Ht as [Hk Hne].
      exists key. apply strict_neq_false in Hn.
      repeat split; [exact Hk | now rewrite <- Hn | exact Hne]. }
    split; [exact Hauth |].
    intros next. now apply checkApiKey_authorized.
Qed.

(** ** A logic for what every run satisfies *)

Lemma wp_sound
  (A W : Type) (octokit : remote W) (m : prog A)
  (Q : list call -> completion A -> Prop) (w : W) :
  wp m Q -> Q (calls (run octokit m w)) (result (run octokit m w)).
Proof.
  revert Q w.
  induction m as [a | e | p k IH | p k IH | p k IH]; intros Q w H;
    cbn [wp run] in *.
  - exact H.
  - exact H.
  - destruct (getContent octokit p w) as [o w1].
    apply (IH o (fun t c => Q (GetContent p :: t) c) w1 (H o)).
  - destruct (deleteFile octokit p w) as [o w1].
    apply (IH o (fun t c => Q (DeleteFile p :: t) c) w1 (H o)).
  - destruct (createOrUpdateFileContents octokit p w) as [o w1].
    apply (IH o (fun t c => Q (CreateOrUpdateFileContents p :: t) c) w1 (H o)).
Qed.

Lemma wp_mono
  (A : Type) (m : prog A) (Q Q' : list call -> completion A -> Prop) :
  (forall t c, Q t c -> Q' t c) -> wp m Q -> wp m Q'.
Proof.
  revert Q Q'.
  induction m as [a | e | p k IH | p k IH | p k IH]; intros Q Q' HQ H;
    cbn [wp] in *; try (now apply HQ);
    intros o; apply (IH o _ _ (fun t c => HQ _ c) (H o)).
Qed.

Lemma wp_bind
  (A B : Type) (m : prog A) (f : A -> prog B)
  (Q : list call -> completion B -> Prop) :
  wp m (fun t c =>
          match c with
          | Returned a => wp (f a) (fun t' c' => Q (t ++ t') c')
          | Thrown e => Q t (Thrown e)
          end) ->
  wp (bind m f) Q.
Proof.
  revert Q.
  induction m as [a | e | p k IH | p k IH | p k IH]; intros Q H;
    cbn [wp bind] in *; try exact H; intros o; apply IH;
    (eapply wp_mono; [| apply (H o)]);
    intros t [a|e] Ht; exact Ht.
Qed.

Lemma wp_try_catch
  (A : Type) (m : prog A) (h : string -> prog A)
  (Q : list call -> completion A -> Prop) :
  wp m (fun t c =>
          match c with
          | Returned a => Q t (Returned a)
          | Thrown e => wp (h e) (fun t' c' => Q (t ++ t') c')
          end) ->
  wp (try_catch m h) Q.
Proof.
  revert Q.
  induction m as [a | e | p k IH | p k IH | p k IH]; intros Q H;
    cbn [wp try_catch] in *; try exact H; intros o; apply IH;
    (eapply wp_mono; [| apply (H o)]);
    intros t [a|e] Ht; exact Ht.
Qed.

(** The directory loop only ever deletes, in the configured repository, and
    it runs to its end. *)
Lemma wp_delete_loop (cfg : config) (items : list entry) (acc : list json) :
  wp (for_of items (delete_item cfg) acc)
     (fun t c =>
        Forall (fun k => call_owner k = REPO_OWNER cfg
                         /\ call_repo k = REPO_NAME cfg
                         /\ is_delete k = true) t
        /\ exists results, c = Returned results).
Proof.
  revert acc. induction items as [|item rest IH]; intros acc.
  - cbn. split; [constructor | now exists acc].
  - cbn [for_of]. unfold delete_item at 1.
    destruct (String.eqb (item_type item) "file").
    + cbn [octokit_repos.deleteFile bind try_catch wp].
      intros [[]|e]; cbn [settle bind try_catch];
        (eapply wp_mono; [| apply IH]);
        intros t c [Ht Hc]; (split; [| exact Hc]);
        constructor; auto.
    + cbn [bind]. apply IH.
Qed.

Lemma lookup_first_single (p : getContent_params) (rest : list call) :
  Forall (fun c => is_lookup c = false) rest ->
  lookup_first (GetContent p :: rest).
Proof. intros H. right. now exists p, rest. Qed.

(** A leaf of a handler: the calls are known, the answer is returned. *)
Ltac well_behaved_leaf :=
  unfold well_behaved, lookup_of;
  repeat match goal with
         | |- _ /\ _ => split
         | |- Forall _ [] => constructor
         | |- Forall _ (_ :: _) => constructor
         | |- lookup_first [] => now left
         | |- lookup_first (GetContent _ :: _) => apply lookup_first_single
         | |- exists res, Returned ?r = Returned res /\ _ =>
             exists r; split; [reflexivity | cbn; tauto]
         | |- _ = _ => reflexivity
         end.

(** The directory branch of a delete: a lookup, then the loop. *)
Lemma well_behaved_directory
  (cfg : config) (route : endpoint) (path : string) (t : list call)
  (res : response) :
  route = POST_api_delete \/ route = POST_api_claude ->
  status res = 200 ->
  Forall (fun k => call_owner k = REPO_OWNER cfg
                   /\ call_repo k = REPO_NAME cfg
                   /\ is_delete k = true) t ->
  well_behaved cfg route (GetContent (lookup_of cfg path) :: t ++ [])
    (Returned res).
Proof.
  intros Hroute Hst Ht. rewrite app_nil_r. unfold well_behaved.
  split; [| split; [| split]].
  - constructor; [now split |].
    eapply Forall_impl; [| exact Ht]. intros k (H1 & H2 & _). now split.
  - constructor; [destruct Hroute as [-> | ->]; reflexivity |].
    eapply Forall_impl; [| exact Ht]. intros k (_ & _ & H).
    destruct Hroute as [-> | ->]; cbn; [| reflexivity].
    rewrite H. apply orb_true_r.
  - apply lookup_first_single.
    eapply Forall_impl; [| exact Ht]. intros k (_ & _ & H).
    destruct k; [discriminate H | reflexivity | discriminate H].
  - exists res. split; [reflexivity |]. rewrite Hst.
    destruct Hroute as [-> | ->]; cbn; tauto.
Qed.

Lemma wp_api_list (cfg : config) (req : request) :
  wp (api_list cfg req) (well_behaved cfg GET_api_list).
Proof.
  unfold api_list. cbn [octokit_repos.getContent bind try_catch wp].
  intros [d|e]; cbn [settle bind try_catch wp]; well_behaved_leaf.
Qed.

(** The delete handler past the gate, for the route it is mounted on and
    for the combined one. *)
Lemma wp_delete_body
  (cfg : config) (route : endpoint) (path : string) :
  route = POST_api_delete \/ route = POST_api_claude ->
  wp (try
        (found <-
           (try
              (data <- octokit_repos.getContent
                         {| gc_owner := REPO_OWNER cfg;
                            gc_repo := REPO_NAME cfg;
                            gc_path := path |} ;;
               Ret (inr data))
            catch error =>
              Ret (inl (res_status_json 404
                          (error_body ("File not found: " ++ error))))) ;;
         match found with
         | inl res => Ret res
         | inr (Listing fileData) =>
             results <- for_of fileData (delete_item cfg) [] ;;
             Ret (res_json
                    (JObj [("success", JBool true);
                           ("results", JArr results);
                           ("message",
                            JStr ("Processed directory " ++ path))]))
         | inr (File fileData) =>
             _ <- octokit_repos.deleteFile
                    {| df_owner := REPO_OWNER cfg;
                       df_repo := REPO_NAME cfg;
                       df_path := path;
                       df_message := "Delete " ++ path;
                       df_sha := item_sha fileData |} ;;
             Ret (res_json
                    (JObj [("success", JBool true);
                           ("message", JStr ("Deleted file " ++ path))]))
         end)
      catch error => Ret (res_status_json 500 (error_body error)))
     (well_behaved cfg route).
Proof.
  intros Hroute.
  cbn [octokit_repos.getContent bind try_catch wp].
  intros [[e | items] | reason]; cbn [settle bind try_catch].
  - cbn [octokit_repos.deleteFile bind try_catch wp].
    intros [[] | reason]; cbn [settle bind try_catch wp];
      destruct Hroute as [-> | ->]; well_behaved_leaf.
  - apply wp_try_catch, wp_bind.
    eapply wp_mono; [| apply wp_delete_loop].
    intros t c (Ht & results & ->). cbn [wp].
    now apply (well_behaved_directory cfg route path t).
  - cbn [wp]. destruct Hroute as [-> | ->]; well_behaved_leaf.
Qed.

Lemma wp_create_body
  (cfg : config) (route : endpoint) (path commit : string)
  (converted : completion (list byte)) :
  route = POST_api_create \/ route = POST_api_claude ->
  wp (try
        (sha <-
           (try
              (data <- octokit_repos.getContent
                         {| gc_owner := REPO_OWNER cfg;
                            gc_repo := REPO_NAME cfg;
                            gc_path := path |} ;;
               Ret (data_sha data))
            catch error => Ret None) ;;
         buffer <- attempt converted ;;
         _ <- octokit_repos.createOrUpdateFileContents
                {| cu_owner := REPO_OWNER cfg;
                   cu_repo := REPO_NAME cfg;
                   cu_path := path;
                   cu_message := commit;
                   cu_content := toString_base64 buffer;
                   cu_sha := sha |} ;;
         Ret (res_json
                (JObj [("success", JBool true);
                       ("message", JStr ("Updated " ++ path))])))
      catch error => Ret (res_status_json 500 (error_body error)))
     (well_behaved cfg route).
Proof.
  intros Hroute.
  cbn [octokit_repos.getContent bind try_catch wp].
  intros [d | reason]; destruct converted as [buffer | thrown];
    cbn [settle attempt bind try_catch
         octokit_repos.createOrUpdateFileContents wp];
    try (intros [[] | reason']; cbn [settle bind try_catch wp]);
    destruct Hroute as [-> | ->]; well_behaved_leaf.
Qed.

Lemma wp_api_delete (cfg : config) (req : request) :
  wp (api_delete cfg req) (well_behaved cfg POST_api_delete).
Proof.
  unfold api_delete. destruct (truthy (body_path (body req))) as [path|].
  - apply wp_delete_body. now left.
  - cbn. well_behaved_leaf.
Qed.

Lemma wp_api_create {rt : node} (cfg : config) (req : request) :
  wp (api_create cfg req) (well_behaved cfg POST_api_create).
Proof.
  unfold api_create.
  destruct (truthy (body_path (body req))) as [path|];
    [destruct (truthy_value (body_content (body req))) as [content|] |].
  - apply wp_create_body. now left.
  - cbn. well_behaved_leaf.
  - cbn. well_behaved_leaf.
Qed.

Lemma wp_api_claude {rt : node} (cfg : config) (req : request) :
  wp (api_claude cfg req) (well_behaved cfg POST_api_claude).
Proof.
  unfold api_claude. cbv zeta.
  destruct (action_is (body_action (body req)) "list").
  { cbn [octokit_repos.getContent bind try_catch wp].
    intros [d|e]; cbn [settle bind try_catch wp]; well_behaved_leaf. }
  destruct (action_is (body_action (body req)) "delete").
  { destruct (truthy (body_path (body req))) as [path|].
    - apply wp_delete_body. now right.
    - cbn. well_behaved_leaf. }
  destruct (action_is (body_action (body req)) "create").
  { destruct (truthy (body_path (body req))) as [path|];
      [destruct (truthy_value (body_content (body req))) as [content|] |].
    - apply wp_create_body. now right.
    - cbn. well_behaved_leaf.
    - cbn. well_behaved_leaf. }
  cbn. well_behaved_leaf.
Qed.

(** Every route, gate included. *)
Lemma wp_app {rt : node} (cfg : config) (route : endpoint) (req : request) :
  wp (app cfg route req) (well_behaved cfg route).
Proof.
  destruct route; cbn [app]; unfold checkApiKey; cbv zeta;
    try (destruct (falsy (x_api_key req)
                   || strict_neq (x_api_key req) (API_KEY cfg));
         [cbn; well_behaved_leaf |]).
  - cbn. well_behaved_leaf.
  - apply wp_api_list.
  - apply wp_api_delete.
  - apply wp_api_create.
  - apply wp_api_claude.
Qed.

Lemma app_well_behaved {rt : node}
  (W : Type) (octokit : remote W) (cfg : config) (route : endpoint)
  (req : request) (w : W) :
  well_behaved cfg route
    (calls (run octokit (app cfg route req) w))
    (result (run octokit (app cfg route req) w)).
Proof. apply wp_sound, wp_app. Qed.

(** ** What holds of every request *)

(** X10. Whatever the route, the request and the answers of the remote, every
    call a handler makes names the configured owner and repository: no
    request can steer the service to another repository. *)
Theorem calls_stay_in_the_configured_repository {rt : node}
  (W : Type) (octokit : remote W) (cfg : config) (route : endpoint)
  (req : request) (w : W) :
  Forall (fun k => call_owner k = REPO_OWNER cfg
                   /\ call_repo k = REPO_NAME cfg)
    (calls (run octokit (app cfg route req) w)).
Proof.
  destruct (app_well_behaved W octokit cfg route req w)
    as (H1 & H2 & H3 & H4).
  exact H1.
Qed.

(** X11. Each dedicated route keeps to its operations, whatever the request
    and the answers of the remote: GET /api calls nothing, GET /api/list
    only looks up, POST /api/delete looks up and deletes but never writes,
    POST /api/create looks up and writes but never deletes. *)
Theorem routes_keep_to_their_operations {rt : node}
  (W : Type) (octokit : remote W) (cfg : config) (route : endpoint)
  (req : request) (w : W) :
  Forall (fun k => route_may_call route k = true)
    (calls (run octokit (app cfg route req) w)).
Proof.
  destruct (app_well_behaved W octokit cfg route req w)
    as (H1 & H2 & H3 & H4).
  exact H2.
Qed.

(** X12. A handler never deletes or writes before it has looked up: the
    calls of any run are either none, or one getContent followed only by
    deleteFile and createOrUpdateFileContents calls. *)
Theorem lookup_comes_first_and_once {rt : node}
  (W : Type) (octokit : remote W) (cfg : config) (route : endpoint)
  (req : request) (w : W) :
  lookup_first (calls (run octokit (app cfg route req) w)).
Proof.
  destruct (app_well_behaved W octokit cfg route req w)
    as (H1 & H2 & H3 & H4).
  exact H3.
Qed.

(** X13. No exception escapes a handler.  Against a remote whose calls all
    settle, every request to every route is answered: when the parser
    refuses the body, with the status of the parser's error; otherwise with
    the JSON response of the route, whose status is one of those of the
    route: 200 for GET /api; 200, 401, 500 for list; 200, 400, 401, 500 for
    create; 200, 400, 401, 404, 500 for delete and for the combined
    endpoint. *)
Theorem every_request_is_answered {rt : node}
  (W : Type) (octokit : remote W) (cfg : config) (route : endpoint)
  (inc : incoming) (w : W) :
  exists rep : reply,
    result (run octokit (server cfg route inc) w) = Returned rep
    /\ match in_body inc with
       | Refused code => rep = ErrorPage code
       | Parsed _ =>
           exists res : response,
             rep = Handled res /\ In (status res) (route_statuses route)
       end.
Proof.
  unfold server. destruct (in_body inc) as [b | code].
  - destruct (app_well_behaved W octokit cfg route (parsed_request inc b) w)
      as (_ & _ & _ & res & Hres & Hin).
    exists (Handled res). rewrite run_bind, Hres. cbn.
    split; [reflexivity |]. now exists res.
  - exists (ErrorPage code). split; reflexivity.
Qed.

(** ** More on the encoding of the content *)

Lemma Buffer_from_length (s : string) :
  List.length (Buffer_from s) = String.length s.
Proof.
  unfold Buffer_from. rewrite replace_length.
  unfold list_byte_of_string.
  rewrite length_map. induction s as [|c s IH]; [reflexivity |].
  cbn. now rewrite IH.
Qed.

Lemma base64_encode_length (bytes : list byte) :
  String.length (base64_encode bytes) = 4 * ((List.length bytes + 2) / 3).
Proof.
  induction bytes as [| x | x y | x y z rest IH] using list_ind3.
  - reflexivity.
  - reflexivity.
  - reflexivity.
  - cbn [base64_encode String.length List.length]. rewrite IH.
    replace (S (S (S (List.length rest))) + 2)
      with (List.length rest + 2 + 1 * 3) by lia.
    rewrite Nat.div_add by discriminate. lia.
Qed.

(** X14. The content handed to the write call is four characters for every
    three bytes of the submitted content, the last group padded: its length
    is 4 * ceil(n / 3) for a content of n bytes. *)
Theorem encoded_content_length (content : string) :
  String.length (toString_base64 (Buffer_from content))
  = 4 * ((String.length content + 2) / 3).
Proof.
  unfold toString_base64.
  now rewrite base64_encode_length, Buffer_from_length.
Qed.

(** X15. Two well-formed contents (no lone surrogate) that differ are
    handed to the write call as different texts: the encoding tells
    well-formed contents apart. *)
Theorem encoded_content_determines_content (a b : string) :
  well_formed a = true -> well_formed b = true ->
  String.eqb a b = false ->
  String.eqb (toString_base64 (Buffer_from a))
    (toString_base64 (Buffer_from b)) = false.
Proof.
  intros Ha Hb Hab.
  destruct (String.eqb_spec (toString_base64 (Buffer_from a))
              (toString_base64 (Buffer_from b))) as [H|_]; [| reflexivity].
  unfold toString_base64 in H.
  apply (f_equal base64_decode) in H.
  rewrite !base64_decode_encode in H. injection H as H.
  apply (f_equal string_of_list_byte) in H.
  rewrite (Buffer_from_text a Ha), (Buffer_from_text b Hb) in H.
  subst b. now rewrite String.eqb_refl in Hab.
Qed.

Lemma encoded_content_determines_content_witness :
  String.eqb (toString_base64 (Buffer_from "hi"))
    (toString_base64 (Buffer_from "ho")) = false.
Proof.
  apply (encoded_content_determines_content "hi" "ho"); reflexivity.
Defined.
